(** * Generation-orchestration core of the assistant: a shallow embedding

    The development follows the Python sources

      - [modules/ai/ai_manager.py]            (class [AIManager])
      - [modules/ai/local_llm.py], [cloud_llm.py]  (the two backends)
      - [modules/learning/memory.py]          (class [Memory])
      - [modules/learning/learning_manager.py] (class [LearningManager])
      - [modules/vector_db/rag_manager.py]    (class [RAGManager])

    Python [str] is modelled by [string] (characters are the code points
    below 256), Python [int] by [Z], Python [float] by the IEEE-754
    binary64 numbers of [SpecFloat] (round to nearest even, the arithmetic
    CPython uses), a [dict] used as a map by [gmap], a [list] by [list].
    Calls that leave the process (HTTP requests to the model servers, the
    file system, the clock, the process environment) are parameters of the
    functions that make them. *)

From Stdlib Require Import ZArith Ascii String List Bool Lia.
From Stdlib Require Import Floats.SpecFloat.
From stdpp Require Import base option list gmap strings.

Local Open Scope string_scope.
Local Open Scope Z_scope.

(** ** Python values *)

Module Py.

(** *** Exceptions and results *)

Inductive exn : Type :=
| ValueError
| OverflowError
| AttributeError.

(** What a call does: it returns a value or raises. *)
Inductive result (A : Type) : Type :=
| Returned (a : A)
| Raised (e : exn).
Arguments Returned {A} a.
Arguments Raised {A} e.

Definition raises {A : Type} (r : result A) : Prop :=
  exists e, r = Raised e.

(** *** float: IEEE-754 binary64 *)

Definition prec : Z := 53.
Definition emax : Z := 1024.

Definition float : Type := spec_float.

(** [float(n)] for an [int]: correctly rounded; CPython raises
    [OverflowError] when the integer is too large. *)
Definition float_of_int (n : Z) : result float :=
  match binary_normalize prec emax n 0 false with
  | S754_infinity _ => Raised OverflowError
  | f => Returned f
  end.

(** A literal whose value is a small integer, such as [5.0] or [1.0]. *)
Definition float_lit (n : Z) : float := binary_normalize prec emax n 0 false.

(** A decimal literal [n/d] with [n] and [d] exactly representable, such
    as [0.5] or [0.1]: the nearest binary64. *)
Definition float_dec (n d : Z) : float :=
  SFdiv prec emax (float_lit n) (float_lit d).

Definition fadd : float -> float -> float := SFadd prec emax.
Definition fsub : float -> float -> float := SFsub prec emax.
Definition fmul : float -> float -> float := SFmul prec emax.
Definition fdiv : float -> float -> float := SFdiv prec emax.

(** [x == y], [x < y], [x >= y] on floats. *)
Definition feq (x y : float) : bool := SFeqb x y.
Definition flt (x y : float) : bool := SFltb x y.
Definition fge (x y : float) : bool := SFleb y x.

(** The builtin [min(a, b)]: [b] replaces [a] only when [b < a]. *)
Definition fmin (a b : float) : float := if flt b a then b else a.

(** [int(x)] for a float: truncation toward zero; raises on NaN and on
    the infinities. *)
Definition int_of_float (x : float) : result Z :=
  match x with
  | S754_zero _ => Returned 0
  | S754_infinity _ => Raised OverflowError
  | S754_nan => Raised ValueError
  | S754_finite s m e =>
      let mag := if 0 <=? e then Z.shiftl (Z.pos m) e
                 else Z.shiftr (Z.pos m) (- e) in
      Returned (if s then - mag else mag)
  end.

(** *** Numbers: [int] and [float] with Python's mixed arithmetic *)

Inductive num : Type :=
| Int (n : Z)
| Float (x : float).

Definition bind {A B : Type} (r : result A) (k : A -> result B) : result B :=
  match r with
  | Returned a => k a
  | Raised e => Raised e
  end.

(** Both operands as floats, as the interpreter coerces an [int] that
    meets a [float]. *)
Definition to_float (a : num) : result float :=
  match a with
  | Int n => float_of_int n
  | Float x => Returned x
  end.

Definition arith (zop : Z -> Z -> Z) (fop : float -> float -> float)
    (a b : num) : result num :=
  match a, b with
  | Int x, Int y => Returned (Int (zop x y))
  | _, _ =>
      bind (to_float a) (fun x =>
      bind (to_float b) (fun y =>
      Returned (Float (fop x y))))
  end.

Definition add : num -> num -> result num := arith Z.add fadd.
Definition sub : num -> num -> result num := arith Z.sub fsub.
Definition mul : num -> num -> result num := arith Z.mul fmul.

(** [int(a)]. *)
Definition int (a : num) : result Z :=
  match a with
  | Int n => Returned n
  | Float x => int_of_float x
  end.

(** *** str *)

(** [len(s)]. *)
Definition len (s : string) : Z := Z.of_nat (String.length s).

(** [str.lower] on one character: the upper-case letters of ASCII and of
    Latin-1 (U+00C0..U+00DE without the multiplication sign) move up by
    32; every other character below 256 is unchanged. *)
Definition lower_char (c : ascii) : ascii :=
  let n := N_of_ascii c in
  if ((65 <=? n) && (n <=? 90)
      || (192 <=? n) && (n <=? 222) && negb (n =? 215))%N
  then ascii_of_N (n + 32) else c.

Fixpoint lower (s : string) : string :=
  match s with
  | EmptyString => EmptyString
  | String c s' => String (lower_char c) (lower s')
  end.

(** [needle in hay]: substring test. *)
Fixpoint contains (needle hay : string) : bool :=
  String.prefix needle hay
  || match hay with
     | EmptyString => false
     | String _ hay' => contains needle hay'
     end.

(** [sep.join(parts)]. *)
Definition join (sep : string) (parts : list string) : string :=
  String.concat sep parts.

(** Truth value of an optional string: [None] and [''] are false. *)
Definition truthy (r : option string) : bool :=
  match r with
  | Some s => negb (String.eqb s "")
  | None => false
  end.

(** [r or default] for an optional string. *)
Definition or_else (r : option string) (default : string) : string :=
  match r with
  | Some s => if String.eqb s "" then default else s
  | None => default
  end.

(** [lst[start:]] with Python's treatment of a negative or too large
    start. *)
Definition slice_from {A : Type} (l : list A) (start : Z) : list A :=
  let n := Z.of_nat (length l) in
  let i := if start <? 0 then Z.max (n + start) 0 else Z.min start n in
  drop (Z.to_nat i) l.

End Py.

(** ** The process environment ([os.environ]) *)

(** Variables in the order [os.environ.items()] yields them; a name occurs
    at most once. *)
Definition environ : Type := list (string * string).

(** [os.getenv(k)]. *)
Fixpoint getenv (env : environ) (k : string) : option string :=
  match env with
  | [] => None
  | (k', v) :: env' => if String.eqb k k' then Some v else getenv env' k
  end.

(** ** The backends ([local_llm.py], [cloud_llm.py]) *)

(** One chat turn: [{'role': ..., 'content': ...}]. *)
Record Message : Type := mkMessage {
  role : string;
  content : string
}.

Module LocalLLM.

(** The configuration flag the methods read, and the model server behind
    [base_url]: [server_up] says that [GET /api/tags] answered 200
    without an exception; [http_generate] and [http_chat] give the text of
    a 200 answer to the POST, [None] for any other status or exception. *)
Record t : Type := mk {
  enabled : bool;
  server_up : bool;
  http_generate : string -> option string -> option string;
  http_chat : list Message -> option string
}.

Definition is_available (self : t) : bool := server_up self.

Definition generate (self : t) (prompt : string) (system : option string)
    : option string :=
  if negb (enabled self) then None
  else http_generate self prompt system.

Definition chat (self : t) (messages : list Message) : option string :=
  if negb (enabled self) then None
  else http_chat self messages.

End LocalLLM.

Module CloudLLM.

(** [has_client] says that [self.client is not None]; [api_generate] and
    [api_chat] give the provider's answer, [None] when the call raised. *)
Record t : Type := mk {
  enabled : bool;
  provider : string;
  has_client : bool;
  api_generate : string -> option string -> option string;
  api_chat : list Message -> option string
}.

Definition is_available (self : t) : bool :=
  enabled self && has_client self.

Definition known_provider (self : t) : bool :=
  String.eqb (provider self) "openai"
  || String.eqb (provider self) "openrouter"
  || String.eqb (provider self) "anthropic".

Definition generate (self : t) (prompt : string) (system : option string)
    : option string :=
  if negb (is_available self) then None
  else if known_provider self then api_generate self prompt system
  else None.

Definition chat (self : t) (messages : list Message) : option string :=
  if negb (is_available self) then None
  else if known_provider self then api_chat self messages
  else None.

End CloudLLM.

(** ** The orchestrator ([ai_manager.py]) *)

Module AIManager.

(** A call the orchestrator makes on one of its two backends. *)
Inductive backend_call : Type :=
| LocalIsAvailable
| LocalGenerate (prompt : string) (system : option string)
| LocalChat (messages : list Message)
| CloudIsAvailable
| CloudGenerate (prompt : string) (system : option string)
| CloudChat (messages : list Message).

(** *** Control flow of a method body

    A statement logs the backend calls it makes and either returns from
    the method with a string or falls through to the next statement. *)
Inductive step (A : Type) : Type :=
| Return (s : string)
| Next (a : A).
Arguments Return {A} s.
Arguments Next {A} a.

Definition flow (A : Type) : Type := list backend_call * step A.

Definition pure {A : Type} (a : A) : flow A := ([], Next a).

Definition return_ {A : Type} (s : string) : flow A := ([], Return s).

Definition call {A : Type} (c : backend_call) (answer : A) : flow A :=
  ([c], Next answer).

Definition bind {A B : Type} (m : flow A) (k : A -> flow B) : flow B :=
  match m with
  | (log, Return s) => (log, Return s)
  | (log, Next a) => let '(log', r) := k a in ((log ++ log')%list, r)
  end.

(** [if c: body]. *)
Definition when (c : bool) (body : flow unit) : flow unit :=
  if c then body else pure tt.

Notation "'let*' x ':=' m 'in' k" := (bind m (fun x => k))
  (at level 10, x name, m at level 100, k at level 200, only parsing).

(** A method whose last statement is a [return]: its result and the
    backend calls it made, in order. *)
Definition run (body : flow Empty_set) : Py.result string * list backend_call :=
  match body with
  | (log, Return s) => (Py.Returned s, log)
  | (_, Next e) => match e with end
  end.

(** *** Configuration and construction *)

(** The [personal_injection] section of the configuration. *)
Record PersonalInjection : Type := mkPersonalInjection {
  pi_enabled : option bool;
  pi_env_keys : option (list string);
  pi_directive : option string
}.

(** The keys [__init__] reads from [config]; [None] is an absent key. *)
Record Config : Type := mkConfig {
  cfg_mode : option string;
  cfg_decision_threshold : option Py.float;
  cfg_personal_injection : option PersonalInjection
}.

Record t : Type := mk {
  mode : string;
  decision_threshold : Py.float;
  personal_injection_enabled : bool;
  personal_env_keys : list string;
  personal_directive : string;
  local_llm : LocalLLM.t;
  cloud_llm : CloudLLM.t
}.

Definition default_directive : string :=
  "Use the user's personal information to provide personalized replies when appropriate.".

(** [AIManager.__init__]; the two backends are passed as built. *)
Definition __init__ (config : Config) (env : environ)
    (local : LocalLLM.t) (cloud : CloudLLM.t) : t :=
  let pi_conf := default (mkPersonalInjection None None None)
                   (cfg_personal_injection config) in
  {| mode := default (default "hybrid" (cfg_mode config)) (getenv env "AI_MODE");
     decision_threshold := default (Py.float_dec 1 2) (cfg_decision_threshold config);
     personal_injection_enabled := default false (pi_enabled pi_conf);
     personal_env_keys := default [] (pi_env_keys pi_conf);
     personal_directive := default default_directive (pi_directive pi_conf);
     local_llm := local;
     cloud_llm := cloud |}.

(** *** [_build_system_prompt] *)

(** [collected[k] = v] on a dict kept in insertion order: an existing key
    keeps its place. *)
Fixpoint dict_set (d : list (string * string)) (k v : string)
    : list (string * string) :=
  match d with
  | [] => [(k, v)]
  | (k', v') :: d' =>
      if String.eqb k k' then (k, v) :: d' else (k', v') :: dict_set d' k v
  end.

(** [str.isspace] on the characters below 256. *)
Definition is_space (c : ascii) : bool :=
  let n := N_of_ascii c in
  ((9 <=? n) && (n <=? 13) || (28 <=? n) && (n <=? 32)
   || (n =? 133) || (n =? 160))%N.

Fixpoint lstrip (s : string) : string :=
  match s with
  | EmptyString => EmptyString
  | String c s' => if is_space c then lstrip s' else s
  end.

Fixpoint rstrip (s : string) : string :=
  match s with
  | EmptyString => EmptyString
  | String c s' =>
      let r := rstrip s' in
      if is_space c && String.eqb r "" then EmptyString else String c r
  end.

(** [str.strip()]. *)
Definition strip (s : string) : string := lstrip (rstrip s).

Definition _build_system_prompt (self : t) (env : environ) : option string :=
  if negb (personal_injection_enabled self) then None
  else
    let collected :=
      match personal_env_keys self with
      | _ :: _ =>
          fold_left
            (fun collected k =>
               match getenv env k with
               | Some v => if String.eqb v "" then collected
                           else dict_set collected k v
               | None => collected
               end)
            (personal_env_keys self) []
      | [] =>
          fold_left
            (fun collected '(k, v) =>
               if String.prefix "PHENOM_" k && negb (String.eqb v "")
               then dict_set collected k v else collected)
            env []
      end in
    match collected with
    | [] => None
    | _ =>
        let lines :=
          app [strip (personal_directive self); ""]
              (map (fun '(k, v) => (k ++ ": " ++ v)%string) collected) in
        Some (Py.join (String (ascii_of_N 10) "") lines)
    end.

(** *** [_should_use_cloud] *)

Definition complex_keywords : list string :=
  [ "analyze in detail"; "complex analysis"; "detailed explanation";
    "comprehensive"; "research paper"; "creative writing";
    "translate entire" ].

(** [sum(1 for keyword in complex_keywords if keyword in prompt_lower)]. *)
Definition keyword_matches (prompt : string) : Z :=
  let prompt_lower := Py.lower prompt in
  Z.of_nat
    (length (List.filter (fun keyword => Py.contains keyword prompt_lower)
               complex_keywords)).

Definition complexity_score (prompt : string) : Z :=
  let complexity_score := keyword_matches prompt in
  if Py.len prompt >? 500 then complexity_score + 1 else complexity_score.

(** [min(complexity_score / 5.0, 1.0)]; the integer is at most 8, its
    conversion to float is exact. *)
Definition normalized_score (prompt : string) : Py.float :=
  Py.fmin (Py.fdiv (Py.float_lit (complexity_score prompt)) (Py.float_lit 5))
          (Py.float_lit 1).

Definition _should_use_cloud (self : t) (prompt : string) : bool :=
  Py.fge (normalized_score prompt) (decision_threshold self).

(** *** [generate] and [chat] *)

Definition trouble_processing : string :=
  "I'm having trouble processing that request.".
Definition trouble_connecting : string :=
  "I'm having trouble connecting to my cloud services.".
Definition unable_to_process : string :=
  "I'm currently unable to process your request.".

(** [if response: return response]. *)
Definition return_if_truthy (response : option string) : flow unit :=
  match response with
  | Some s => if String.eqb s "" then pure tt else return_ s
  | None => pure tt
  end.

(** The system prompt [generate] works with: the caller's, or the one
    built from the environment when the caller passed [None]. *)
Definition resolve_system (self : t) (env : environ) (system : option string)
    : option string :=
  match system with
  | None => _build_system_prompt self env
  | Some _ => system
  end.

Definition generate (self : t) (env : environ) (prompt : string)
    (system : option string) (force_cloud : bool)
    : Py.result string * list backend_call :=
  let system := resolve_system self env system in
  let local := local_llm self in
  let cloud := cloud_llm self in
  run (
    if String.eqb (mode self) "local" then
      let* response := call (LocalGenerate prompt system)
                            (LocalLLM.generate local prompt system) in
      return_ (Py.or_else response trouble_processing)
    else if String.eqb (mode self) "cloud" then
      let* response := call (CloudGenerate prompt system)
                            (CloudLLM.generate cloud prompt system) in
      return_ (Py.or_else response trouble_connecting)
    else
      let* _ := when (String.eqb (mode self) "hybrid") (
        if force_cloud || _should_use_cloud self prompt then
          let* available := call CloudIsAvailable (CloudLLM.is_available cloud) in
          let* _ := when available (
            let* response := call (CloudGenerate prompt system)
                                  (CloudLLM.generate cloud prompt system) in
            return_if_truthy response) in
          let* available := call LocalIsAvailable (LocalLLM.is_available local) in
          when available (
            let* response := call (LocalGenerate prompt system)
                                  (LocalLLM.generate local prompt system) in
            return_if_truthy response)
        else
          let* available := call LocalIsAvailable (LocalLLM.is_available local) in
          let* _ := when available (
            let* response := call (LocalGenerate prompt system)
                                  (LocalLLM.generate local prompt system) in
            return_if_truthy response) in
          let* available := call CloudIsAvailable (CloudLLM.is_available cloud) in
          when available (
            let* response := call (CloudGenerate prompt system)
                                  (CloudLLM.generate cloud prompt system) in
            return_if_truthy response)) in
      return_ unable_to_process).

(** The turn sequence [chat] sends: with personal injection enabled and no
    system turn present, a system turn built from the environment is put in
    front. *)
Definition inject_system (self : t) (env : environ) (messages : list Message)
    : list Message :=
  if personal_injection_enabled self then
    let has_system :=
      existsb (fun msg => String.eqb (role msg) "system") messages in
    if negb has_system then
      match _build_system_prompt self env with
      | Some system_prompt =>
          if String.eqb system_prompt "" then messages
          else mkMessage "system" system_prompt :: messages
      | None => messages
      end
    else messages
  else messages.

Definition chat (self : t) (env : environ) (messages : list Message)
    (force_cloud : bool) : Py.result string * list backend_call :=
  let messages := inject_system self env messages in
  let local := local_llm self in
  let cloud := cloud_llm self in
  run (
    if String.eqb (mode self) "local" then
      let* response := call (LocalChat messages) (LocalLLM.chat local messages) in
      return_ (Py.or_else response trouble_processing)
    else if String.eqb (mode self) "cloud" then
      let* response := call (CloudChat messages) (CloudLLM.chat cloud messages) in
      return_ (Py.or_else response trouble_connecting)
    else
      let* _ := when (String.eqb (mode self) "hybrid") (
        let last_message :=
          match last messages with
          | Some msg => content msg
          | None => ""
          end in
        if force_cloud || _should_use_cloud self last_message then
          let* available := call CloudIsAvailable (CloudLLM.is_available cloud) in
          let* _ := when available (
            let* response := call (CloudChat messages) (CloudLLM.chat cloud messages) in
            return_if_truthy response) in
          let* available := call LocalIsAvailable (LocalLLM.is_available local) in
          when available (
            let* response := call (LocalChat messages) (LocalLLM.chat local messages) in
            return_if_truthy response)
        else
          let* available := call LocalIsAvailable (LocalLLM.is_available local) in
          let* _ := when available (
            let* response := call (LocalChat messages) (LocalLLM.chat local messages) in
            return_if_truthy response) in
          let* available := call CloudIsAvailable (CloudLLM.is_available cloud) in
          when available (
            let* response := call (CloudChat messages) (CloudLLM.chat cloud messages) in
            return_if_truthy response)) in
      return_ unable_to_process).

End AIManager.

(** ** The file system, as far as [Memory] meets it *)

Module Os.

(** [p[:p.rfind('/') + 1]]. *)
Fixpoint head_of (p : string) : string :=
  match p with
  | EmptyString => EmptyString
  | String c p' =>
      let h := head_of p' in
      if String.eqb h "" then
        if Ascii.eqb c "/" then String c EmptyString else EmptyString
      else String c h
  end.

Fixpoint all_slashes (s : string) : bool :=
  match s with
  | EmptyString => true
  | String c s' => Ascii.eqb c "/" && all_slashes s'
  end.

(** [s.rstrip('/')]. *)
Fixpoint rstrip_slashes (s : string) : string :=
  match s with
  | EmptyString => EmptyString
  | String c s' =>
      let r := rstrip_slashes s' in
      if Ascii.eqb c "/" && String.eqb r "" then EmptyString else String c r
  end.

(** [os.path.dirname] (POSIX). *)
Definition dirname (p : string) : string :=
  let head := head_of p in
  if negb (String.eqb head "") && negb (all_slashes head)
  then rstrip_slashes head else head.

(** The file system's answer to [os.makedirs(path, exist_ok=True)]:
    [true] when the call returns, [false] when it raises. *)
Definition filesystem : Type := string -> bool.

(** [os.makedirs(path, exist_ok=True)]: the empty path always raises
    ([FileNotFoundError]); any other path is up to the file system. *)
Definition makedirs (fs : filesystem) (path : string) : bool :=
  if String.eqb path "" then false else fs path.

End Os.

(** ** Conversation memory ([memory.py]) *)

Module Memory.

(** One entry of [self.conversations]. *)
Record Conversation : Type := mkConversation {
  timestamp : string;
  user : string;
  assistant : string;
  metadata : gmap string Py.num
}.

(** One entry of [self.memory]. *)
Record Fact : Type := mkFact {
  value : string;
  fact_timestamp : string
}.

Record t : Type := mk {
  memory_file : string;
  conversation_file : string;
  max_history : Z;
  memory : gmap string Fact;
  conversations : list Conversation;
  user_preferences : gmap string Py.num;
  learned_patterns : gmap string Z
}.

Definition with_conversations (self : t) (convs : list Conversation) : t :=
  {| memory_file := memory_file self;
     conversation_file := conversation_file self;
     max_history := max_history self;
     memory := memory self;
     conversations := convs;
     user_preferences := user_preferences self;
     learned_patterns := learned_patterns self |}.

Definition with_user_preferences (self : t) (prefs : gmap string Py.num) : t :=
  {| memory_file := memory_file self;
     conversation_file := conversation_file self;
     max_history := max_history self;
     memory := memory self;
     conversations := conversations self;
     user_preferences := prefs;
     learned_patterns := learned_patterns self |}.

(** [_save_conversations]: the whole body sits in a [try] whose handler
    only logs, so when [os.makedirs] raises the truncation below it is
    skipped; a failure of the later file write leaves the object as the
    truncation made it. *)
Definition _save_conversations (self : t) (fs : Os.filesystem) : t :=
  if Os.makedirs fs (Os.dirname (conversation_file self)) then
    if Z.of_nat (length (conversations self)) >? max_history self then
      with_conversations self
        (Py.slice_from (conversations self) (- max_history self))
    else self
  else self.

(** [add_conversation]; [now] is [datetime.now().isoformat()]. *)
Definition add_conversation (self : t) (fs : Os.filesystem) (now : string)
    (user_input assistant_response : string)
    (metadata : option (gmap string Py.num)) : t :=
  let conversation :=
    {| timestamp := now;
       user := user_input;
       assistant := assistant_response;
       metadata := default ∅ metadata |} in
  let self := with_conversations self (conversations self ++ [conversation]) in
  _save_conversations self fs.

Definition get_recent_conversations (self : t) (limit : Z) : list Conversation :=
  Py.slice_from (conversations self) (- limit).

(** [set_preference]; [_save_memory] only writes the file. *)
Definition set_preference (self : t) (key : string) (value : Py.num) : t :=
  with_user_preferences self (<[key := value]> (user_preferences self)).

Definition get_preference (self : t) (key : string) (default_ : Py.num) : Py.num :=
  default default_ (user_preferences self !! key).

End Memory.

(** ** Learning ([learning_manager.py]) *)

Module LearningManager.

(** [__init__] sets [self.memory] only when the manager is enabled:
    [None] is the missing attribute. *)
Record t : Type := mk {
  enabled : bool;
  learning_rate : Py.num;
  memory : option Memory.t
}.

Definition with_memory (self : t) (m : Memory.t) : t :=
  {| enabled := enabled self;
     learning_rate := learning_rate self;
     memory := Some m |}.

(** Reading [self.memory]. *)
Definition get_memory (self : t) : Py.result Memory.t :=
  match memory self with
  | Some m => Py.Returned m
  | None => Py.Raised Py.AttributeError
  end.

(** [updated = current * (1 - self.learning_rate) + new_rate * self.learning_rate]. *)
Definition smoothed (current new_rate learning_rate : Py.num) : Py.result Py.num :=
  Py.bind (Py.sub (Py.Int 1) learning_rate) (fun keep =>
  Py.bind (Py.mul current keep) (fun old_part =>
  Py.bind (Py.mul new_rate learning_rate) (fun new_part =>
  Py.add old_part new_part))).

Definition _update_preferences (self : t) (user_input : string)
    (metadata : option (gmap string Py.num)) : Py.result t :=
  match metadata with
  | None => Py.Returned self
  | Some md =>
      if bool_decide (md = ∅) then Py.Returned self
      else
        match md !! "preferred_voice_rate" with
        | Some new_rate =>
            Py.bind (get_memory self) (fun memory =>
            let current := Memory.get_preference memory "voice_rate" (Py.Int 175) in
            Py.bind (smoothed current new_rate (learning_rate self)) (fun updated =>
            Py.bind (Py.int updated) (fun stored =>
            Py.Returned
              (with_memory self
                 (Memory.set_preference memory "voice_rate" (Py.Int stored))))))
        | None => Py.Returned self
        end
  end.

End LearningManager.

(** ** Context assembly ([rag_manager.py]) *)

Module RAGManager.

(** One hit of the vector search. *)
Record Doc : Type := mkDoc {
  document : string;
  doc_metadata : gmap string string;
  distance : Py.num;
  id : string
}.

Record t : Type := mk {
  enabled : bool;
  min_similarity_threshold : Py.float;
  max_context_length : Z
}.

(** [__init__]; of the vector store only its [enabled] flag is read. *)
Definition __init__ (vector_db_enabled : bool) : t :=
  {| enabled := vector_db_enabled;
     min_similarity_threshold := Py.float_dec 1 2;
     max_context_length := 2000 |}.

(** The [for] loop of [_build_context], from the state
    [(context_parts, total_length)]: [break] at the first document that
    does not fit. *)
Fixpoint collect (self : t) (docs : list Doc)
    (context_parts : list string) (total_length : Z) : list string :=
  match docs with
  | [] => context_parts
  | doc :: docs' =>
      let doc_text := document doc in
      let doc_length := Py.len doc_text in
      if total_length + doc_length >? max_context_length self
      then context_parts
      else collect self docs' (context_parts ++ [doc_text])
                   (total_length + doc_length)
  end.

Definition newline : string := String (ascii_of_N 10) EmptyString.

Definition _build_context (self : t) (docs : list Doc) : string :=
  let context_parts := collect self docs [] 0 in
  Py.join (newline ++ newline) context_parts.

End RAGManager.

(** * The rest of the cited modules

    The methods of [memory.py], [learning_manager.py], [rag_manager.py] and
    the startup import of [core.py] that sit next to the ones above, on the
    same records. *)

(** ** More of [str] *)

Module PyStr.

(** [s[:n]] for a count [n] that is not negative. *)
Fixpoint prefix_of (n : nat) (s : string) : string :=
  match n, s with
  | S n', String c s' => String c (prefix_of n' s')
  | _, _ => EmptyString
  end.

(** The loop of [str.split()] (no argument): [word] is the word being
    read; runs of white space separate words and none is empty. *)
Fixpoint split_from (s : string) (word : string) : list string :=
  match s with
  | EmptyString => if String.eqb word "" then [] else [word]
  | String c s' =>
      if AIManager.is_space c then
        if String.eqb word "" then split_from s' ""
        else word :: split_from s' ""
      else split_from s' (word ++ String c EmptyString)
  end.

(** [s.split()]. *)
Definition split (s : string) : list string := split_from s "".

End PyStr.

(** ** [memory.py]: facts, patterns, search, summary *)

Module MemoryStore.
Import Memory.

Definition with_memory (self : t) (facts : gmap string Fact) : t :=
  {| memory_file := memory_file self;
     conversation_file := conversation_file self;
     max_history := max_history self;
     memory := facts;
     conversations := conversations self;
     user_preferences := user_preferences self;
     learned_patterns := learned_patterns self |}.

Definition with_learned_patterns (self : t) (patterns : gmap string Z) : t :=
  {| memory_file := memory_file self;
     conversation_file := conversation_file self;
     max_history := max_history self;
     memory := memory self;
     conversations := conversations self;
     user_preferences := user_preferences self;
     learned_patterns := patterns |}.

(** [remember]; [now] is [datetime.now().isoformat()]. *)
Definition remember (self : t) (now : string) (key value : string) : t :=
  with_memory self (<[key := mkFact value now]> (memory self)).

Definition recall (self : t) (key : string) : option string :=
  match memory self !! key with
  | Some fact => Some (Memory.value fact)
  | None => None
  end.

(** [forget]: the store after the call and the value returned. *)
Definition forget (self : t) (key : string) : t * bool :=
  match memory self !! key with
  | Some _ => (with_memory self (delete key (memory self)), true)
  | None => (self, false)
  end.

Definition search_conversations (self : t) (query : string) : list Conversation :=
  let query_lower := Py.lower query in
  List.filter
    (fun conv =>
       Py.contains query_lower (Py.lower (user conv))
       || Py.contains query_lower (Py.lower (assistant conv)))
    (conversations self).

(** [learn_pattern]: [learned_patterns] is a [defaultdict(int)]. *)
Definition learn_pattern (self : t) (pattern : string) : t :=
  with_learned_patterns self
    (<[pattern := default 0 (learned_patterns self !! pattern) + 1]>
       (learned_patterns self)).

Definition get_pattern_frequency (self : t) (pattern : string) : Z :=
  default 0 (learned_patterns self !! pattern).

Definition no_recent_history : string := "No recent conversation history.".

Definition get_context_summary (self : t) (limit : Z) : string :=
  let recent := get_recent_conversations self limit in
  match recent with
  | [] => no_recent_history
  | _ =>
      fold_left
        (fun summary conv =>
           (summary
            ++ ("User: " ++ PyStr.prefix_of 100 (user conv) ++ "..."
                ++ RAGManager.newline)
            ++ ("Assistant: " ++ PyStr.prefix_of 100 (assistant conv) ++ "..."
                ++ RAGManager.newline ++ RAGManager.newline))%string)
        recent
        ("Recent conversation context:" ++ RAGManager.newline)%string
  end.

End MemoryStore.

(** ** [learning_manager.py]: interactions, patterns, facts *)

Module Learning.
Import LearningManager.

(** The loop of [_extract_and_learn_patterns] from position [i] on:
    [words] is [words[i:]]; the bigram with the next word is learned before
    the word itself. *)
Fixpoint learn_words (m : Memory.t) (words : list string) : Memory.t :=
  match words with
  | [] => m
  | w :: rest =>
      let m :=
        match rest with
        | w' :: _ => MemoryStore.learn_pattern m (w ++ " " ++ w')%string
        | [] => m
        end in
      learn_words (MemoryStore.learn_pattern m w) rest
  end.

Definition _extract_and_learn_patterns (self : t) (text : string) : Py.result t :=
  let words := PyStr.split (Py.lower text) in
  match words with
  | [] => Py.Returned self
  | _ =>
      Py.bind (get_memory self) (fun memory =>
      Py.Returned (with_memory self (learn_words memory words)))
  end.

(** [process_interaction]: the manager as the call leaves it, and whether
    the call returned or raised. What was recorded before a [raise] stays
    recorded. *)
Definition process_interaction (self : t) (fs : Os.filesystem) (now : string)
    (user_input response : string) (metadata : option (gmap string Py.num))
    : t * Py.result unit :=
  if negb (enabled self) then (self, Py.Returned tt)
  else
    match get_memory self with
    | Py.Raised e => (self, Py.Raised e)
    | Py.Returned memory =>
        let self :=
          with_memory self
            (Memory.add_conversation memory fs now user_input response metadata) in
        match _extract_and_learn_patterns self user_input with
        | Py.Raised e => (self, Py.Raised e)
        | Py.Returned self =>
            match _update_preferences self user_input metadata with
            | Py.Raised e => (self, Py.Raised e)
            | Py.Returned self => (self, Py.Returned tt)
            end
        end
    end.

Definition get_contextual_response (self : t) (query : string) : Py.result string :=
  Py.bind (get_memory self) (fun memory =>
  let similar_conversations := MemoryStore.search_conversations memory query in
  match last similar_conversations with
  | Some most_recent =>
      Py.Returned ("Based on our previous conversation, "
                   ++ Memory.assistant most_recent)%string
  | None => Py.Returned ""
  end).

Definition remember_fact (self : t) (now : string) (key value : string)
    : Py.result t :=
  Py.bind (get_memory self) (fun memory =>
  Py.Returned (with_memory self (MemoryStore.remember memory now key value))).

Definition recall_fact (self : t) (key : string) : Py.result (option string) :=
  Py.bind (get_memory self) (fun memory =>
  Py.Returned (MemoryStore.recall memory key)).

Definition get_conversation_context (self : t) (limit : Z)
    : Py.result (list Memory.Conversation) :=
  Py.bind (get_memory self) (fun memory =>
  Py.Returned (Memory.get_recent_conversations memory limit)).

End Learning.

(** ** [rag_manager.py]: retrieval-augmented generation *)

Module RAG.
Import RAGManager.

(** The vector store as [RAGManager] uses it: its [enabled] flag and the
    answer of [search(query, n_results)], [None] when the call raises. *)
Record VectorDB : Type := mkVectorDB {
  vdb_enabled : bool;
  vdb_search : string -> Z -> option (list Doc)
}.

Definition rag_prompt_head : string :=
  "Use the following context to answer the question. If the context doesn't contain relevant information, use your general knowledge.".

Definition _create_rag_prompt (query context : string) : string :=
  (rag_prompt_head ++ newline ++ newline
   ++ "Context:" ++ newline
   ++ context ++ newline ++ newline
   ++ "Question: " ++ query ++ newline ++ newline
   ++ "Answer:")%string.

(** [generate_with_context]; [ai] and [env] are the orchestrator and the
    environment its calls run in. *)
Definition generate_with_context (self : t) (vector_db : VectorDB)
    (ai : AIManager.t) (env : environ) (query : string) (n_context : Z)
    (force_cloud : bool) : Py.result string * list AIManager.backend_call :=
  if negb (enabled self) || negb (vdb_enabled vector_db) then
    AIManager.generate ai env query None force_cloud
  else
    match vdb_search vector_db query n_context with
    | None => AIManager.generate ai env query None force_cloud
    | Some [] => AIManager.generate ai env query None force_cloud
    | Some relevant_docs =>
        let context := _build_context self relevant_docs in
        let enhanced_prompt := _create_rag_prompt query context in
        AIManager.generate ai env enhanced_prompt None force_cloud
    end.

(** The loop over [reversed(messages)]: the content of the last turn whose
    role is user. *)
Fixpoint last_user_message (messages : list Message) : option string :=
  match messages with
  | [] => None
  | msg :: rest =>
      match last_user_message rest with
      | Some c => Some c
      | None => if String.eqb (role msg) "user" then Some (content msg) else None
      end
  end.

Definition context_message (context : string) : Message :=
  mkMessage "system"
    ("Use this context in your responses:" ++ newline ++ newline ++ context)%string.

Definition chat_with_context (self : t) (vector_db : VectorDB)
    (ai : AIManager.t) (env : environ) (messages : list Message) (n_context : Z)
    (force_cloud : bool) : Py.result string * list AIManager.backend_call :=
  if negb (enabled self) || negb (vdb_enabled vector_db) then
    AIManager.chat ai env messages force_cloud
  else
    match last_user_message messages with
    | None => AIManager.chat ai env messages force_cloud
    | Some query =>
        if String.eqb query "" then AIManager.chat ai env messages force_cloud
        else
          match vdb_search vector_db query n_context with
          | None => AIManager.chat ai env messages force_cloud
          | Some [] => AIManager.chat ai env messages force_cloud
          | Some relevant_docs =>
              let context := _build_context self relevant_docs in
              let enhanced_messages := context_message context :: messages in
              AIManager.chat ai env enhanced_messages force_cloud
          end
    end.

(** [semantic_search]; the store's answer is returned as it comes, a
    [raise] included. *)
Definition semantic_search (self : t) (vector_db : VectorDB) (query : string)
    (n_results : Z) : option (list Doc) :=
  if negb (enabled self) then Some []
  else vdb_search vector_db query n_results.

End RAG.

(** ** [core.py]: the startup import of personal variables *)

Module Phenom.

(** [collected]: the variables to import, in insertion order. *)
Definition collect_env (keys : list string) (env : environ)
    : list (string * string) :=
  match keys with
  | _ :: _ =>
      fold_left
        (fun collected k =>
           match getenv env k with
           | Some v => if String.eqb v "" then collected
                       else AIManager.dict_set collected k v
           | None => collected
           end)
        keys []
  | [] =>
      fold_left
        (fun collected '(k, v) =>
           if String.prefix "PHENOM_" k && negb (String.eqb v "")
           then AIManager.dict_set collected k v else collected)
        env []
  end.

(** The loop over [collected.items()]: a fact is written only when
    [recall_fact] finds none. [clock k] is the time at which the fact for
    [k] is written. *)
Fixpoint import_facts (learning : LearningManager.t) (clock : string -> string)
    (collected : list (string * string)) : LearningManager.t * Py.result unit :=
  match collected with
  | [] => (learning, Py.Returned tt)
  | (k, v) :: rest =>
      match Learning.recall_fact learning k with
      | Py.Raised e => (learning, Py.Raised e)
      | Py.Returned (Some _) => import_facts learning clock rest
      | Py.Returned None =>
          match Learning.remember_fact learning (clock k) k v with
          | Py.Raised e => (learning, Py.Raised e)
          | Py.Returned learning => import_facts learning clock rest
          end
      end
  end.

(** [_import_personal_envs]; [personal_injection] is that section of the
    [ai] configuration. *)
Definition _import_personal_envs
    (personal_injection : option AIManager.PersonalInjection) (env : environ)
    (clock : string -> string) (learning : LearningManager.t)
    : LearningManager.t * Py.result unit :=
  let ai_conf := default (AIManager.mkPersonalInjection None None None)
                   personal_injection in
  let enabled := default false (AIManager.pi_enabled ai_conf) in
  if negb enabled then (learning, Py.Returned tt)
  else
    let keys := default [] (AIManager.pi_env_keys ai_conf) in
    match collect_env keys env with
    | [] => (learning, Py.Returned tt)
    | collected => import_facts learning clock collected
    end.

End Phenom.

(** * Observations and examples

    What the statements below read off a result, and the concrete managers,
    stores, prompts and documents they are checked on. *)

(** ** For the orchestrator *)

Module AIManagerExamples.
Import AIManager.

(** A string of [n] copies of the letter x, to give example prompts and
    documents a length. *)
Fixpoint filler (n : nat) : string :=
  match n with
  | O => EmptyString
  | S n' => String "x" (filler n')
  end.

Definition long_prompt_with_four_keywords : string :=
  "Comprehensive research paper, creative writing, detailed explanation "
  ++ filler 500.

Definition long_prompt_with_three_keywords : string :=
  "Comprehensive research paper with creative writing " ++ filler 500.

Definition local_ok : LocalLLM.t :=
  LocalLLM.mk true true (fun prompt _ => Some ("local: " ++ prompt))
              (fun _ => Some "local chat").

Definition local_empty : LocalLLM.t :=
  LocalLLM.mk true true (fun _ _ => Some "") (fun _ => Some "").

Definition cloud_ok : CloudLLM.t :=
  CloudLLM.mk true "openai" true (fun prompt _ => Some ("cloud: " ++ prompt))
              (fun _ => Some "cloud chat").

Definition cloud_off : CloudLLM.t :=
  CloudLLM.mk false "openai" false (fun _ _ => None) (fun _ => None).

Definition hybrid_config : Config :=
  mkConfig (Some "hybrid") (Some (Py.float_dec 1 2)) None.

Definition manager_without_backends : t :=
  __init__ hybrid_config [] local_empty cloud_off.

(** A manager whose threshold is the literal 0.6, and a prompt with three
    complexity phrases: its score 3/5.0 is that same float. *)
Definition manager_with_threshold_six_tenths : t :=
  __init__ (mkConfig (Some "hybrid") (Some (Py.float_dec 6 10)) None)
           [] local_ok cloud_ok.

Definition prompt_with_three_keywords : string :=
  "A comprehensive research paper on creative writing".

Definition hybrid_manager : t := __init__ hybrid_config [] local_ok cloud_ok.

(** The content of the last turn [chat] scores in hybrid mode; the empty
    string when there is no turn. *)
Definition last_message (messages : list Message) : string :=
  match last messages with
  | Some msg => content msg
  | None => ""
  end.

End AIManagerExamples.

(** ** For the learned preferences *)

Module LearningExamples.
Import LearningManager.

(** The preference a call leaves under [key]; nothing when it raised. *)
Definition stored_preference (r : Py.result t) (key : string) : option Py.num :=
  match r with
  | Py.Returned self' =>
      match memory self' with
      | Some m => Memory.user_preferences m !! key
      | None => None
      end
  | Py.Raised _ => None
  end.

Definition metadata_rate_200 : gmap string Py.num :=
  {[ "preferred_voice_rate" := Py.Int 200 ]}.

Definition fresh_memory : Memory.t :=
  Memory.mk "data/memory.json" "data/conversations.json" 1000 ∅ [] ∅ ∅.

(** A manager with the default learning rate 0.1 and no preference yet. *)
Definition fresh_manager : t :=
  mk true (Py.Float (Py.float_dec 1 10)) (Some fresh_memory).

End LearningExamples.

(** ** For the conversation log *)

Module MemoryExamples.
Import Memory.

(** A file system on which every directory can be made. *)
Definition fs_ok : Os.filesystem := fun _ => true.

Definition turn (user_input : string) : Conversation :=
  mkConversation "2024-01-01T00:00:00" user_input "ok" ∅.

(** [add_conversation] with the arguments of [turn]. *)
Definition add (fs : Os.filesystem) (self : t) (user_input : string) : t :=
  add_conversation self fs "2024-01-01T00:00:00" user_input "ok" None.

(** One call of [add] after the other, oldest first. *)
Definition add_all (fs : Os.filesystem) (self : t) (inputs : list string) : t :=
  fold_left (add fs) inputs self.

Definition store_with_cap (cap : Z) : t :=
  mk "data/memory.json" "data/conversations.json" cap ∅ [] ∅ ∅.

Definition store_with_two_turns : t :=
  add_all fs_ok (store_with_cap 1000) ["first"; "second"].

End MemoryExamples.

(** ** For the context assembly *)

Module RAGExamples.
Import RAGManager.

(** Sum of the lengths of some texts. *)
Fixpoint text_length (parts : list string) : Z :=
  match parts with
  | [] => 0
  | s :: parts' => Py.len s + text_length parts'
  end.

Definition doc (text : string) : Doc := mkDoc text ∅ (Py.Int 0) "doc".

Definition three_ranked_docs : list Doc :=
  [doc (AIManagerExamples.filler 1500); doc (AIManagerExamples.filler 600);
   doc (AIManagerExamples.filler 10)].

(** [k - 1] one-character documents after one of [budget - (k - 1)]
    characters: together exactly the budget. *)
Definition tight_docs (budget k : Z) : list Doc :=
  doc (AIManagerExamples.filler (Z.to_nat (budget - (k - 1))))
  :: repeat (doc "x") (Z.to_nat (k - 1)).

Definition two_docs_of_1000 : list Doc :=
  [doc (AIManagerExamples.filler 1000); doc (AIManagerExamples.filler 1000)].

End RAGExamples.

(** ** For the rest of the cited modules *)

Module MoreExamples.

(** The patterns [_extract_and_learn_patterns] learns from a list of
    words, in the order it learns them. *)
Fixpoint patterns_of (words : list string) : list string :=
  match words with
  | [] => []
  | w :: rest =>
      match rest with
      | w' :: _ => (w ++ " " ++ w')%string :: w :: patterns_of rest
      | [] => w :: patterns_of rest
      end
  end.

(** Whether a conversation matches a query, as [search_conversations]
    tests it. *)
Definition matches (query : string) (conv : Memory.Conversation) : bool :=
  Py.contains (Py.lower query) (Py.lower (Memory.user conv))
  || Py.contains (Py.lower query) (Py.lower (Memory.assistant conv)).

(** Every character is white space. *)
Fixpoint all_space (s : string) : bool :=
  match s with
  | EmptyString => true
  | String c s' => AIManager.is_space c && all_space s'
  end.

(** The answer a backend has for a request in hybrid mode: its response
    when its probe succeeds and the response is neither absent nor empty. *)
Definition usable (available : bool) (response : option string) : option string :=
  if available && Py.truthy response then response else None.

(** The first answer on hand in the order of preference, else the fixed
    string. *)
Definition prefer (first second : option string) : string :=
  match first, second with
  | Some s, _ => s
  | None, Some s => s
  | None, None => AIManager.unable_to_process
  end.

(** NaN or an infinity. *)
Definition nonfinite (x : Py.float) : bool :=
  match x with
  | S754_nan | S754_infinity _ => true
  | _ => false
  end.

Definition nan_rate : gmap string Py.num :=
  {[ "preferred_voice_rate" := Py.Float S754_nan ]}.

Definition store_with_fact : Memory.t :=
  MemoryStore.remember (MemoryExamples.store_with_cap 1000)
    "2024-01-01T00:00:00" "PHENOM_AGE" "35".

Definition weather_log : Memory.t :=
  MemoryExamples.add_all MemoryExamples.fs_ok (MemoryExamples.store_with_cap 1000)
    ["What is the WEATHER today"; "tell me a joke"; "weather tomorrow"].

Definition learner : LearningManager.t :=
  LearningManager.mk true (Py.Float (Py.float_dec 1 10))
    (Some (MemoryExamples.store_with_cap 1000)).

Definition personal_manager : AIManager.t :=
  AIManager.__init__
    (AIManager.mkConfig (Some "local") None
       (Some (AIManager.mkPersonalInjection (Some true) (Some ["PHENOM_AGE"])
                (Some "Use the user info."))))
    [] AIManagerExamples.local_ok AIManagerExamples.cloud_off.

Definition personal_on : option AIManager.PersonalInjection :=
  Some (AIManager.mkPersonalInjection (Some true) (Some ["PHENOM_AGE"; "CITY"]) None).

Definition personal_env : environ :=
  [("HOME", "/root"); ("PHENOM_AGE", "35"); ("CITY", "Oslo")].

Definition stamp (k : string) : string := "2024-01-01T00:00:00".

Definition store_rag : RAG.VectorDB :=
  RAG.mkVectorDB true
    (fun _ _ => Some [RAGExamples.doc "Oslo is the capital of Norway."]).

Definition store_down : RAG.VectorDB := RAG.mkVectorDB true (fun _ _ => None).

End MoreExamples.

(** * Properties *)

(** ** Floats *)

Section FloatFacts.

(** [x == y] gives [y == x] on the comparison the float operators share. *)
Lemma SFcompare_Eq_sym (x y : spec_float) :
  SFcompare x y = Some Eq -> SFcompare y x = Some Eq.
Proof.
  destruct x as [sx|sx| |sx mx ex], y as [sy|sy| |sy my ey]; simpl;
    try discriminate; try reflexivity;
    try (destruct sx; discriminate); try (destruct sy; discriminate).
  - destruct sx, sy; intros H; try discriminate; reflexivity.
  - destruct sx, sy; try discriminate.
    + destruct (ex ?= ey) eqn:He; try discriminate.
      apply Z.compare_eq in He; subst ey.
      intros H. injection H as H.
      destruct (Pos.compare_cont Eq mx my) eqn:Hm; try discriminate.
      apply Pos.compare_eq in Hm; subst my.
      rewrite Z.compare_refl.
      change (Pos.compare_cont Eq mx mx) with (Pos.compare mx mx).
      now rewrite Pos.compare_refl.
    + destruct (ex ?= ey) eqn:He; try discriminate.
      apply Z.compare_eq in He; subst ey.
      intros H. injection H as H.
      apply Pos.compare_eq in H; subst my.
      rewrite Z.compare_refl.
      change (Pos.compare_cont Eq mx mx) with (Pos.compare mx mx).
      now rewrite Pos.compare_refl.
Qed.

(** [x == y] implies [x >= y]. *)
Lemma feq_fge (x y : Py.float) : Py.feq x y = true -> Py.fge x y = true.
Proof.
  unfold Py.feq, Py.fge, SFeqb, SFleb.
  destruct (SFcompare x y) as [[]|] eqn:E; try discriminate.
  intros _. now rewrite (SFcompare_Eq_sym _ _ E).
Qed.

End FloatFacts.

(** ** The orchestrator *)

Module AIManagerFacts.
Import AIManager AIManagerExamples.

Lemma keyword_matches_range (prompt : string) :
  0 <= keyword_matches prompt <= 7.
Proof.
  unfold keyword_matches.
  pose proof (List.filter_length_le
                (fun keyword => Py.contains keyword (Py.lower prompt))
                complex_keywords) as H.
  change (length complex_keywords) with 7%nat in H. lia.
Qed.

Lemma complexity_score_range (prompt : string) :
  0 <= complexity_score prompt <= 8.
Proof.
  unfold complexity_score. pose proof (keyword_matches_range prompt).
  destruct (Py.len prompt >? 500); lia.
Qed.

(** The normalized score takes one of six values, all in [[0,1]]. *)
Lemma normalized_score_values (prompt : string) :
  In (normalized_score prompt)
     [ Py.float_lit 0; Py.float_dec 1 5; Py.float_dec 2 5;
       Py.float_dec 3 5; Py.float_dec 4 5; Py.float_lit 1 ].
Proof.
  unfold normalized_score.
  pose proof (complexity_score_range prompt) as H.
  assert (Hc : complexity_score prompt = 0 \/ complexity_score prompt = 1
               \/ complexity_score prompt = 2 \/ complexity_score prompt = 3
               \/ complexity_score prompt = 4 \/ complexity_score prompt = 5
               \/ complexity_score prompt = 6 \/ complexity_score prompt = 7
               \/ complexity_score prompt = 8) by lia.
  destruct Hc as [-> | [-> | [-> | [-> | [-> | [-> | [-> | [-> | ->]]]]]]]];
    vm_compute; tauto.
Qed.

(** C1, as amended. A prompt that contains at least four of the seven
    complexity phrases (matched as substrings of the lower-cased prompt)
    and is longer than 500 characters has normalized complexity score
    exactly 1.0: the count plus one is at least five, and five fifths is
    where the clamp starts. *)
Theorem score_is_one_from_four_keywords_and_long_prompt (prompt : string) :
  4 <= keyword_matches prompt ->
  Py.len prompt > 500 ->
  normalized_score prompt = Py.float_lit 1
  /\ Py.feq (normalized_score prompt) (Py.float_lit 1) = true.
Proof.
  intros Hk Hl.
  pose proof (keyword_matches_range prompt) as Hr.
  unfold normalized_score, complexity_score.
  destruct (Py.len prompt >? 500) eqn:E; [|lia].
  assert (Hc : keyword_matches prompt = 4 \/ keyword_matches prompt = 5
               \/ keyword_matches prompt = 6 \/ keyword_matches prompt = 7)
    by lia.
  destruct Hc as [-> | [-> | [-> | ->]]]; vm_compute; split; reflexivity.
Qed.

Lemma score_is_one_from_four_keywords_and_long_prompt_witness :
  4 <= keyword_matches long_prompt_with_four_keywords
  /\ Py.len long_prompt_with_four_keywords > 500
  /\ normalized_score long_prompt_with_four_keywords = Py.float_lit 1
  /\ Py.feq (normalized_score long_prompt_with_four_keywords) (Py.float_lit 1) = true.
Proof.
  assert (Hk : 4 <= keyword_matches long_prompt_with_four_keywords)
    by (vm_compute; discriminate).
  assert (Hl : Py.len long_prompt_with_four_keywords > 500)
    by (vm_compute; reflexivity).
  split; [exact Hk | split; [exact Hl |]].
  exact (score_is_one_from_four_keywords_and_long_prompt
           long_prompt_with_four_keywords Hk Hl).
Defined.

(** C1 as stated fails: this prompt contains three distinct complexity
    phrases and has 551 characters, and its score is 4/5.0, not 1.0. *)
Lemma score_of_three_keywords_and_long_prompt_is_not_one :
  3 <= keyword_matches long_prompt_with_three_keywords
  /\ Py.len long_prompt_with_three_keywords > 500
  /\ normalized_score long_prompt_with_three_keywords = Py.float_dec 4 5
  /\ Py.feq (normalized_score long_prompt_with_three_keywords) (Py.float_lit 1) = false.
Proof.
  vm_compute. repeat split; discriminate.
Qed.

(** *** Running a method body *)

Lemma run_bind_return {A : Type} (log : list backend_call) (s : string)
    (k : A -> flow Empty_set) :
  run (bind (log, Return s) k) = (Py.Returned s, log).
Proof. reflexivity. Qed.

(** A method never raises: its result is always a string. *)
Lemma run_returns (body : flow Empty_set) :
  exists s, fst (run body) = Py.Returned s.
Proof.
  destruct body as [log [s | []]]. now exists s.
Qed.

Lemma return_if_truthy_falsy (response : option string) :
  Py.truthy response = false -> return_if_truthy response = pure tt.
Proof.
  destruct response as [s|]; simpl; [|reflexivity].
  destruct (String.eqb s ""); [reflexivity | discriminate].
Qed.

Lemma return_if_truthy_truthy (response : option string) :
  Py.truthy response = true ->
  exists s, response = Some s /\ return_if_truthy response = return_ s.
Proof.
  destruct response as [s|]; simpl; [|discriminate].
  destruct (String.eqb s ""); [discriminate |]. intros _. now exists s.
Qed.

Ltac hybrid_mode H :=
  rewrite H;
  change (String.eqb "hybrid" "local") with false;
  change (String.eqb "hybrid" "cloud") with false;
  change (String.eqb "hybrid" "hybrid") with true;
  cbv iota.

(** C2. In hybrid mode, when each backend is unavailable to the request
    (its availability probe fails, or its answer is absent or empty),
    [generate] returns the fixed string "I'm currently unable to process
    your request."; it returns, it does not raise. This holds for every
    prompt, every system argument and either value of [force_cloud]. *)
Theorem hybrid_generate_falls_back_when_both_unavailable
    (self : t) (env : environ) (prompt : string) (system : option string)
    (force_cloud : bool) :
  mode self = "hybrid" ->
  (CloudLLM.is_available (cloud_llm self) = false
   \/ Py.truthy (CloudLLM.generate (cloud_llm self) prompt
                   (resolve_system self env system)) = false) ->
  (LocalLLM.is_available (local_llm self) = false
   \/ Py.truthy (LocalLLM.generate (local_llm self) prompt
                   (resolve_system self env system)) = false) ->
  fst (generate self env prompt system force_cloud)
  = Py.Returned "I'm currently unable to process your request.".
Proof.
  intros Hmode Hcloud Hlocal.
  unfold generate. hybrid_mode Hmode.
  destruct (force_cloud || _should_use_cloud self prompt);
    destruct (CloudLLM.is_available (cloud_llm self)) eqn:Ec;
    destruct (LocalLLM.is_available (local_llm self)) eqn:El;
    destruct Hcloud as [Hc | Hc]; try discriminate Hc;
    destruct Hlocal as [Hl | Hl]; try discriminate Hl;
    cbn [when call bind pure];
    rewrite ?(return_if_truthy_falsy _ Hc), ?(return_if_truthy_falsy _ Hl);
    reflexivity.
Qed.

(** *** Example backends *)

Lemma hybrid_generate_falls_back_when_both_unavailable_witness :
  mode manager_without_backends = "hybrid"
  /\ (CloudLLM.is_available (cloud_llm manager_without_backends) = false
      \/ Py.truthy (CloudLLM.generate (cloud_llm manager_without_backends) "hi"
                      (resolve_system manager_without_backends [] None)) = false)
  /\ (LocalLLM.is_available (local_llm manager_without_backends) = false
      \/ Py.truthy (LocalLLM.generate (local_llm manager_without_backends) "hi"
                      (resolve_system manager_without_backends [] None)) = false)
  /\ fst (generate manager_without_backends [] "hi" None false)
     = Py.Returned "I'm currently unable to process your request.".
Proof.
  assert (Hm : mode manager_without_backends = "hybrid") by reflexivity.
  assert (Hc : CloudLLM.is_available (cloud_llm manager_without_backends) = false
               \/ Py.truthy (CloudLLM.generate (cloud_llm manager_without_backends) "hi"
                               (resolve_system manager_without_backends [] None)) = false)
    by (left; reflexivity).
  assert (Hl : LocalLLM.is_available (local_llm manager_without_backends) = false
               \/ Py.truthy (LocalLLM.generate (local_llm manager_without_backends) "hi"
                               (resolve_system manager_without_backends [] None)) = false)
    by (right; reflexivity).
  split; [exact Hm | split; [exact Hc | split; [exact Hl |]]].
  exact (hybrid_generate_falls_back_when_both_unavailable
           manager_without_backends [] "hi" None false Hm Hc Hl).
Defined.

(** With the default threshold 0.5 no prompt sits on the boundary: the
    score is a multiple of one fifth. *)
Lemma score_never_equals_one_half (prompt : string) :
  Py.feq (normalized_score prompt) (Py.float_dec 1 2) = false.
Proof.
  pose proof (normalized_score_values prompt) as H. simpl in H.
  destruct H as [<- | [<- | [<- | [<- | [<- | [<- | []]]]]]]; reflexivity.
Qed.

(** C5. In hybrid mode with [force_cloud] unset, a prompt whose score
    equals the decision threshold is treated as complex: the comparison
    [score >= threshold] holds, the first backend the orchestrator turns to
    is the cloud one, and when the cloud backend is available and answers
    with a non-empty text that text is returned without the local backend
    being consulted. *)
Theorem hybrid_score_equal_to_threshold_prefers_cloud
    (self : t) (env : environ) (prompt : string) (system : option string) :
  mode self = "hybrid" ->
  Py.feq (normalized_score prompt) (decision_threshold self) = true ->
  _should_use_cloud self prompt = true
  /\ (exists rest,
        snd (generate self env prompt system false) = CloudIsAvailable :: rest)
  /\ (forall s,
        CloudLLM.is_available (cloud_llm self) = true ->
        CloudLLM.generate (cloud_llm self) prompt
          (resolve_system self env system) = Some s ->
        s <> "" ->
        generate self env prompt system false
        = (Py.Returned s,
           [CloudIsAvailable;
            CloudGenerate prompt (resolve_system self env system)])).
Proof.
  intros Hmode Heq.
  assert (Hcloud : _should_use_cloud self prompt = true)
    by (unfold _should_use_cloud; now apply feq_fge).
  split; [exact Hcloud |].
  unfold generate. hybrid_mode Hmode. rewrite Hcloud.
  change (false || true) with true. cbv iota.
  split.
  - destruct (CloudLLM.is_available (cloud_llm self));
      cbn [when call bind pure].
    + destruct (return_if_truthy _) as [log [s | []]];
        destruct (LocalLLM.is_available (local_llm self));
        cbn [when call bind pure app run snd];
        try (destruct (return_if_truthy _) as [log' [s' | []]]);
        cbn [when call bind pure app run snd return_]; eauto.
    + destruct (LocalLLM.is_available (local_llm self));
        cbn [when call bind pure app run snd];
        try (destruct (return_if_truthy _) as [log' [s' | []]]);
        cbn [when call bind pure app run snd return_]; eauto.
  - intros s Ha Hg Hs. rewrite Ha, Hg.
    cbn [when call bind pure return_if_truthy].
    apply String.eqb_neq in Hs. rewrite Hs. reflexivity.
Qed.

Lemma hybrid_score_equal_to_threshold_prefers_cloud_witness :
  mode manager_with_threshold_six_tenths = "hybrid"
  /\ Py.feq (normalized_score prompt_with_three_keywords)
            (decision_threshold manager_with_threshold_six_tenths) = true
  /\ _should_use_cloud manager_with_threshold_six_tenths
       prompt_with_three_keywords = true
  /\ generate manager_with_threshold_six_tenths [] prompt_with_three_keywords
       None false
     = (Py.Returned ("cloud: " ++ prompt_with_three_keywords),
        [CloudIsAvailable; CloudGenerate prompt_with_three_keywords None]).
Proof.
  assert (Hm : mode manager_with_threshold_six_tenths = "hybrid")
    by reflexivity.
  assert (He : Py.feq (normalized_score prompt_with_three_keywords)
                 (decision_threshold manager_with_threshold_six_tenths) = true)
    by (vm_compute; reflexivity).
  destruct (hybrid_score_equal_to_threshold_prefers_cloud
              manager_with_threshold_six_tenths [] prompt_with_three_keywords
              None Hm He) as [Hs [_ Hg]].
  split; [exact Hm | split; [exact He | split; [exact Hs |]]].
  apply Hg; [reflexivity | reflexivity | discriminate].
Defined.

(** C10. A manager built by [__init__] whose mode (the [AI_MODE]
    variable when set, else the configured mode, else hybrid) is none of
    local, cloud and hybrid answers every [generate] and every [chat] with
    the fixed string "I'm currently unable to process your request." and
    makes no call on either backend, not even an availability probe. *)
Theorem unknown_mode_returns_fallback_without_backend_calls
    (config : Config) (env0 env : environ) (local : LocalLLM.t)
    (cloud : CloudLLM.t) (prompt : string) (system : option string)
    (messages : list Message) (force_cloud : bool) :
  mode (__init__ config env0 local cloud) <> "local" ->
  mode (__init__ config env0 local cloud) <> "cloud" ->
  mode (__init__ config env0 local cloud) <> "hybrid" ->
  generate (__init__ config env0 local cloud) env prompt system force_cloud
  = (Py.Returned "I'm currently unable to process your request.", [])
  /\ chat (__init__ config env0 local cloud) env messages force_cloud
     = (Py.Returned "I'm currently unable to process your request.", []).
Proof.
  intros Hl Hc Hh.
  apply String.eqb_neq in Hl, Hc, Hh.
  unfold generate, chat. rewrite Hl, Hc, Hh. split; reflexivity.
Qed.

Lemma unknown_mode_returns_fallback_without_backend_calls_witness :
  mode (__init__ hybrid_config [("AI_MODE", "turbo")] local_ok cloud_ok) = "turbo"
  /\ generate (__init__ hybrid_config [("AI_MODE", "turbo")] local_ok cloud_ok)
       [("AI_MODE", "turbo")] "hi" None true
     = (Py.Returned "I'm currently unable to process your request.", [])
  /\ chat (__init__ hybrid_config [("AI_MODE", "turbo")] local_ok cloud_ok)
       [("AI_MODE", "turbo")] [mkMessage "user" "hi"] true
     = (Py.Returned "I'm currently unable to process your request.", []).
Proof.
  split; [reflexivity |].
  apply (unknown_mode_returns_fallback_without_backend_calls
           hybrid_config [("AI_MODE", "turbo")] [("AI_MODE", "turbo")]
           local_ok cloud_ok "hi" None [mkMessage "user" "hi"] true);
    discriminate.
Defined.

(** *** [chat] on an empty turn sequence *)

(** C3 as stated fails: on the empty turn sequence this hybrid manager
    probes the local backend, sends it the empty sequence and returns its
    answer. Nothing is raised and the backends are called. *)
Lemma chat_on_empty_sequence_calls_backend :
  chat hybrid_manager [] [] false
  = (Py.Returned "local chat", [LocalIsAvailable; LocalChat []])
  /\ ~ Py.raises (fst (chat hybrid_manager [] [] false))
  /\ snd (chat hybrid_manager [] [] false) <> [].
Proof.
  split; [reflexivity |]. split.
  - intros [e He]. discriminate He.
  - discriminate.
Qed.

(** C3, as amended. [chat] on the empty turn sequence signals nothing:
    it returns a string, as for any other sequence. In local and in cloud
    mode it sends the sequence (with the injected system turn, if any) to
    that backend; in hybrid mode it scores the last turn sent, the empty
    string when none, and probes the backend that score prefers. Without
    personal injection the sequence sent is the empty one. *)
Theorem chat_on_empty_sequence_returns
    (self : t) (env : environ) (force_cloud : bool) :
  (exists s, fst (chat self env [] force_cloud) = Py.Returned s)
  /\ ~ Py.raises (fst (chat self env [] force_cloud))
  /\ (mode self = "local" ->
      chat self env [] force_cloud
      = (Py.Returned (Py.or_else
                        (LocalLLM.chat (local_llm self) (inject_system self env []))
                        "I'm having trouble processing that request."),
         [LocalChat (inject_system self env [])]))
  /\ (mode self = "cloud" ->
      chat self env [] force_cloud
      = (Py.Returned (Py.or_else
                        (CloudLLM.chat (cloud_llm self) (inject_system self env []))
                        "I'm having trouble connecting to my cloud services."),
         [CloudChat (inject_system self env [])]))
  /\ (mode self = "hybrid" ->
      exists rest,
        snd (chat self env [] force_cloud)
        = (if force_cloud
              || _should_use_cloud self (last_message (inject_system self env []))
           then CloudIsAvailable else LocalIsAvailable) :: rest)
  /\ (personal_injection_enabled self = false -> inject_system self env [] = []).
Proof.
  assert (Hret : exists s, fst (chat self env [] force_cloud) = Py.Returned s)
    by apply run_returns.
  split; [exact Hret |]. split.
  { destruct Hret as [s Hs]. intros [e He]. congruence. }
  split; [| split; [| split]].
  - intros Hm. unfold chat. rewrite Hm. reflexivity.
  - intros Hm. unfold chat. rewrite Hm. reflexivity.
  - intros Hm. unfold chat. hybrid_mode Hm. fold (last_message (inject_system self env [])).
    destruct (force_cloud || _should_use_cloud self _);
      cbn [when call bind pure].
    + destruct (CloudLLM.is_available (cloud_llm self));
        cbn [when call bind pure];
        try (destruct (return_if_truthy _) as [log [s | []]]);
        destruct (LocalLLM.is_available (local_llm self));
        cbn [when call bind pure app run snd];
        try (destruct (return_if_truthy _) as [log' [s' | []]]);
        cbn [when call bind pure app run snd return_]; eauto.
    + destruct (LocalLLM.is_available (local_llm self));
        cbn [when call bind pure];
        try (destruct (return_if_truthy _) as [log [s | []]]);
        destruct (CloudLLM.is_available (cloud_llm self));
        cbn [when call bind pure app run snd];
        try (destruct (return_if_truthy _) as [log' [s' | []]]);
        cbn [when call bind pure app run snd return_]; eauto.
  - intros Hp. unfold inject_system. now rewrite Hp.
Qed.

End AIManagerFacts.

(** ** Learned preferences *)

Module LearningFacts.
Import LearningManager LearningExamples.

(** On two integers and a float rate the update is the float expression
    [current * (1 - rate) + new_rate * rate], each operation rounded. *)
Lemma smoothed_int_int_float (current new_rate : Z) (rate c n : Py.float) :
  Py.float_of_int current = Py.Returned c ->
  Py.float_of_int new_rate = Py.Returned n ->
  smoothed (Py.Int current) (Py.Int new_rate) (Py.Float rate)
  = Py.Returned
      (Py.Float (Py.fadd (Py.fmul c (Py.fsub (Py.float_lit 1) rate))
                         (Py.fmul n rate))).
Proof.
  intros Hc Hn. unfold smoothed, Py.sub, Py.mul, Py.add, Py.arith.
  cbn [Py.to_float Py.bind]. rewrite Hc, Hn.
  change (Py.float_of_int 1) with (Py.Returned (Py.float_lit 1)).
  reflexivity.
Qed.

(** C4, as amended. When the metadata carries [preferred_voice_rate],
    [_update_preferences] computes [current * (1 - rate) + new * rate], with
    [current] the stored [voice_rate] or 175 when that key is absent, and
    stores the result truncated to an integer under [voice_rate], leaving
    every other preference as it was. In particular, from the default 175
    with new value 200 and rate 0.1 the expression is 177.5 and the value
    stored is 177. *)
Theorem voice_rate_update_is_smoothed_then_truncated
    (self : t) (m : Memory.t) (md : gmap string Py.num) (new_rate : Py.num)
    (user_input : string) (updated : Py.num) (stored : Z) :
  memory self = Some m ->
  md !! "preferred_voice_rate" = Some new_rate ->
  smoothed (default (Py.Int 175) (Memory.user_preferences m !! "voice_rate"))
           new_rate (learning_rate self) = Py.Returned updated ->
  Py.int updated = Py.Returned stored ->
  stored_preference (_update_preferences self user_input (Some md)) "voice_rate"
  = Some (Py.Int stored)
  /\ (forall key, key <> "voice_rate" ->
      stored_preference (_update_preferences self user_input (Some md)) key
      = Memory.user_preferences m !! key)
  /\ (Memory.user_preferences m !! "voice_rate" = None ->
      new_rate = Py.Int 200 ->
      learning_rate self = Py.Float (Py.float_dec 1 10) ->
      updated = Py.Float (Py.float_dec 355 2) /\ stored = 177).
Proof.
  intros Hm Hmd Hup Hint.
  assert (Hne : bool_decide (md = ∅) = false).
  { apply bool_decide_eq_false. intros ->. rewrite lookup_empty in Hmd.
    discriminate. }
  assert (Hrun : _update_preferences self user_input (Some md)
                 = Py.Returned
                     (with_memory self
                        (Memory.set_preference m "voice_rate" (Py.Int stored)))).
  { unfold _update_preferences, get_memory, Memory.get_preference.
    rewrite Hne, Hmd, Hm. cbn [Py.bind]. rewrite Hup. cbn [Py.bind].
    rewrite Hint. reflexivity. }
  rewrite Hrun. cbn [stored_preference with_memory memory].
  unfold Memory.set_preference. cbn [Memory.user_preferences Memory.with_user_preferences].
  split; [apply lookup_insert_eq |].
  split.
  - intros key Hkey. now apply lookup_insert_ne.
  - intros Habsent -> Hrate. rewrite Habsent, Hrate in Hup.
    cbn [default] in Hup.
    rewrite (smoothed_int_int_float 175 200 _ (Py.float_lit 175) (Py.float_lit 200))
      in Hup by reflexivity.
    injection Hup as <-.
    split; [vm_compute; reflexivity |].
    vm_compute in Hint. now injection Hint as <-.
Qed.

Lemma voice_rate_update_is_smoothed_then_truncated_witness :
  memory fresh_manager = Some fresh_memory
  /\ metadata_rate_200 !! "preferred_voice_rate" = Some (Py.Int 200)
  /\ smoothed (default (Py.Int 175)
                (Memory.user_preferences fresh_memory !! "voice_rate"))
             (Py.Int 200) (learning_rate fresh_manager)
     = Py.Returned (Py.Float (Py.float_dec 355 2))
  /\ Py.int (Py.Float (Py.float_dec 355 2)) = Py.Returned 177
  /\ stored_preference
       (_update_preferences fresh_manager "speak faster" (Some metadata_rate_200))
       "voice_rate"
     = Some (Py.Int 177).
Proof.
  assert (H1 : memory fresh_manager = Some fresh_memory) by reflexivity.
  assert (H2 : metadata_rate_200 !! "preferred_voice_rate" = Some (Py.Int 200))
    by apply lookup_singleton_eq.
  assert (H3 : smoothed (default (Py.Int 175)
                           (Memory.user_preferences fresh_memory !! "voice_rate"))
                        (Py.Int 200) (learning_rate fresh_manager)
               = Py.Returned (Py.Float (Py.float_dec 355 2)))
    by (vm_compute; reflexivity).
  assert (H4 : Py.int (Py.Float (Py.float_dec 355 2)) = Py.Returned 177)
    by (vm_compute; reflexivity).
  split; [exact H1 | split; [exact H2 | split; [exact H3 | split; [exact H4 |]]]].
  exact (proj1 (voice_rate_update_is_smoothed_then_truncated
                  fresh_manager fresh_memory metadata_rate_200 (Py.Int 200)
                  "speak faster" _ 177 H1 H2 H3 H4)).
Defined.

(** C4 as stated fails: from the default 175, with new value 200 and
    rate 0.1, the value stored is the integer 177, not 177.5. *)
Lemma voice_rate_stored_is_177_not_177_5 :
  stored_preference
    (_update_preferences fresh_manager "speak faster" (Some metadata_rate_200))
    "voice_rate"
  = Some (Py.Int 177)
  /\ stored_preference
       (_update_preferences fresh_manager "speak faster" (Some metadata_rate_200))
       "voice_rate"
     <> Some (Py.Float (Py.float_dec 355 2)).
Proof.
  assert (H : stored_preference
                (_update_preferences fresh_manager "speak faster"
                   (Some metadata_rate_200)) "voice_rate"
              = Some (Py.Int 177)) by (vm_compute; reflexivity).
  split; [exact H |]. rewrite H. discriminate.
Qed.

End LearningFacts.

(** ** The conversation log *)

Module MemoryFacts.
Import Memory MemoryExamples.

(** *** Slices *)

(** [lst[-n:]] for a positive [n] is the last [n] elements, or all of them
    when there are fewer. *)
Lemma slice_from_neg {A : Type} (l : list A) (n : Z) :
  0 < n ->
  Py.slice_from l (- n) = drop (length l - Z.to_nat n) l.
Proof.
  intros Hn. unfold Py.slice_from.
  destruct (- n <? 0) eqn:E; [|lia].
  f_equal. lia.
Qed.

(** [lst[-0:]] is [lst[0:]]: the whole list. *)
Lemma slice_from_neg_zero {A : Type} (l : list A) :
  Py.slice_from l (- 0) = l.
Proof.
  unfold Py.slice_from. change (- 0) with 0.
  change (0 <? 0) with false. cbv iota.
  rewrite Z.min_l by lia. reflexivity.
Qed.

(** *** [get_recent_conversations] *)

Lemma get_recent_conversations_positive (self : t) (limit : Z) :
  0 < limit ->
  get_recent_conversations self limit
  = drop (length (conversations self)
          - Nat.min (Z.to_nat limit) (length (conversations self)))
         (conversations self)
  /\ length (get_recent_conversations self limit)
     = Nat.min (Z.to_nat limit) (length (conversations self)).
Proof.
  intros Hl. unfold get_recent_conversations.
  rewrite slice_from_neg by exact Hl.
  destruct (Nat.le_ge_cases (Z.to_nat limit) (length (conversations self)))
    as [Hle | Hge].
  - rewrite Nat.min_l by exact Hle. split; [reflexivity |].
    rewrite length_drop. lia.
  - rewrite Nat.min_r by exact Hge.
    replace (length (conversations self) - Z.to_nat limit)%nat with 0%nat by lia.
    rewrite Nat.sub_diag. split; [reflexivity |].
    rewrite length_drop. lia.
Qed.

Lemma get_recent_conversations_zero (self : t) :
  get_recent_conversations self 0 = conversations self.
Proof. apply slice_from_neg_zero. Qed.

(** C8 at limit 0: the slice [conversations[-0:]] is the whole log, so a
    store that holds two turns answers with both of them, oldest first,
    where the claim asks for the empty sequence. *)
Theorem get_recent_conversations_at_zero_returns_whole_log :
  get_recent_conversations store_with_two_turns 0 = [turn "first"; turn "second"]
  /\ get_recent_conversations store_with_two_turns 0 <> [].
Proof.
  rewrite get_recent_conversations_zero.
  split; [reflexivity | discriminate].
Qed.

(** *** [add_conversation] *)

Lemma add_keeps_settings (fs : Os.filesystem) (self : t) (user_input : string) :
  max_history (add fs self user_input) = max_history self
  /\ conversation_file (add fs self user_input) = conversation_file self.
Proof.
  unfold add, add_conversation, _save_conversations.
  cbn [conversation_file max_history conversations with_conversations].
  destruct (Os.makedirs fs _); [|split; reflexivity].
  destruct (_ >? _); split; reflexivity.
Qed.

(** With a positive cap and a directory that can be made, one append
    leaves the last [cap] turns of the extended log. *)
Lemma add_conversations (fs : Os.filesystem) (self : t) (user_input : string) :
  Os.makedirs fs (Os.dirname (conversation_file self)) = true ->
  0 < max_history self ->
  conversations (add fs self user_input)
  = drop (length (conversations self ++ [turn user_input])
          - Z.to_nat (max_history self))
         (conversations self ++ [turn user_input]).
Proof.
  intros Hfs Hcap. unfold add, add_conversation, _save_conversations.
  cbn [conversation_file max_history conversations with_conversations default].
  rewrite Hfs. fold (turn user_input).
  destruct (_ >? _) eqn:E.
  - cbn [conversations with_conversations]. now apply slice_from_neg.
  - replace (_ - _)%nat with 0%nat by lia. reflexivity.
Qed.

(** So the log is within the cap right after the append. *)
Lemma add_within_cap (fs : Os.filesystem) (self : t) (user_input : string) :
  Os.makedirs fs (Os.dirname (conversation_file self)) = true ->
  0 < max_history self ->
  Z.of_nat (length (conversations (add fs self user_input))) <= max_history self.
Proof.
  intros Hfs Hcap. rewrite add_conversations by assumption.
  rewrite length_drop, length_app. cbn [length]. lia.
Qed.

(** Appending a run of turns to a log within the cap leaves the last
    [cap] turns of the whole, in their order. *)
Lemma add_all_conversations (fs : Os.filesystem) (inputs : list string) (self : t) :
  Os.makedirs fs (Os.dirname (conversation_file self)) = true ->
  0 < max_history self ->
  Z.of_nat (length (conversations self)) <= max_history self ->
  conversations (add_all fs self inputs)
  = drop (length (conversations self ++ map turn inputs)
          - Z.to_nat (max_history self))
         (conversations self ++ map turn inputs).
Proof.
  revert self. induction inputs as [|u inputs IH]; intros self Hfs Hcap Hlen.
  - cbn [add_all fold_left map]. rewrite app_nil_r.
    replace (_ - _)%nat with 0%nat by lia. reflexivity.
  - cbn [add_all fold_left map]. fold (add_all fs (add fs self u) inputs).
    destruct (add_keeps_settings fs self u) as [Hcap' Hfile'].
    pose proof (add_within_cap fs self u Hfs Hcap) as Hlen'.
    rewrite IH; rewrite ?Hcap', ?Hfile'; try assumption.
    rewrite add_conversations by assumption.
    set (L := (conversations self ++ [turn u])%list).
    set (j := (length L - Z.to_nat (max_history self))%nat).
    assert (HL : length L = S (length (conversations self)))
      by (unfold L; rewrite length_app; cbn [length]; lia).
    replace (conversations self ++ turn u :: map turn inputs)%list
      with (L ++ map turn inputs)%list
      by (unfold L; now rewrite <- app_assoc).
    assert (Hj : (j <= length L)%nat) by (unfold j; lia).
    rewrite <- (drop_app_le L (map turn inputs) j Hj).
    rewrite drop_drop. f_equal.
    rewrite length_drop, !length_app. unfold j. lia.
Qed.

(** On a store with a positive cap [cap], empty at first, [cap + 5]
    appends leave exactly [cap] turns: all but the five oldest, in the order
    they were appended. *)
Lemma cap_plus_five_appends (fs : Os.filesystem) (cap : Z) (inputs : list string) :
  0 < cap ->
  fs "data" = true ->
  Z.of_nat (length inputs) = cap + 5 ->
  conversations (add_all fs (store_with_cap cap) inputs) = map turn (drop 5 inputs)
  /\ Z.of_nat (length (conversations (add_all fs (store_with_cap cap) inputs))) = cap.
Proof.
  intros Hcap Hfs Hn.
  assert (Hc : conversations (add_all fs (store_with_cap cap) inputs)
               = map turn (drop 5 inputs)).
  { rewrite add_all_conversations; cbn [store_with_cap conversations max_history
                                         conversation_file length app];
      [| exact Hfs | exact Hcap | lia].
    rewrite length_map.
    replace (length inputs - Z.to_nat cap)%nat with 5%nat by lia.
    apply List.skipn_map. }
  split; [exact Hc |].
  rewrite Hc, length_map, length_drop. lia.
Qed.

(** *** Where the cap does not hold *)

(** C6 on a store with cap 0: the slice [conversations[-0:]] keeps the
    whole log, so the first append leaves one turn, above the cap, and five
    appends leave all five turns where the claim asks for none. *)
Theorem cap_zero_store_keeps_every_turn :
  max_history (store_with_cap 0) = 0
  /\ conversations (add fs_ok (store_with_cap 0) "1") = [turn "1"]
  /\ conversations (add_all fs_ok (store_with_cap 0) ["1"; "2"; "3"; "4"; "5"])
     = [turn "1"; turn "2"; turn "3"; turn "4"; turn "5"].
Proof. repeat split. Qed.

(** The truncation sits in the [try] of [_save_conversations]: with a
    conversation file named without a directory, [os.makedirs('')] raises
    and the log is never cut, whatever the cap. *)
Lemma file_without_directory_is_never_truncated :
  conversations
    (add_all fs_ok (mk "memory.json" "conversations.json" 2 ∅ [] ∅ ∅)
             ["1"; "2"; "3"])
  = [turn "1"; turn "2"; turn "3"].
Proof. reflexivity. Qed.

End MemoryFacts.

(** ** Context assembly *)

Module RAGFacts.
Import RAGManager RAGExamples.

(** *** Lengths *)

Lemma len_nonneg (s : string) : 0 <= Py.len s.
Proof. unfold Py.len. lia. Qed.

Lemma len_append (s1 s2 : string) : Py.len (s1 ++ s2) = Py.len s1 + Py.len s2.
Proof.
  unfold Py.len. induction s1 as [|c s1 IH].
  - change (EmptyString ++ s2)%string with s2. cbn [String.length]. lia.
  - change (String c s1 ++ s2)%string with (String c (s1 ++ s2)).
    cbn [String.length]. lia.
Qed.

Lemma text_length_nonneg (parts : list string) : 0 <= text_length parts.
Proof.
  induction parts as [|s parts IH]; cbn [text_length];
    [lia | pose proof (len_nonneg s); lia].
Qed.

Lemma text_length_app (l1 l2 : list string) :
  text_length (l1 ++ l2) = text_length l1 + text_length l2.
Proof.
  induction l1 as [|s l1 IH]; cbn [app text_length]; lia.
Qed.

(** [sep.join(parts)] has the texts' lengths plus one separator between
    neighbours. *)
Lemma len_join (sep : string) (parts : list string) :
  parts <> [] ->
  Py.len (Py.join sep parts)
  = text_length parts + Py.len sep * (Z.of_nat (length parts) - 1).
Proof.
  unfold Py.join. induction parts as [|s parts IH]; [congruence |].
  intros _. destruct parts as [|s' parts].
  - cbn [String.concat text_length length]. lia.
  - change (String.concat sep (s :: s' :: parts))
      with (s ++ sep ++ String.concat sep (s' :: parts)).
    rewrite !len_append, IH by discriminate.
    cbn [text_length length]. lia.
Qed.

Lemma len_filler (n : nat) : Py.len (AIManagerExamples.filler n) = Z.of_nat n.
Proof.
  unfold Py.len. f_equal.
  induction n as [|n IH]; cbn [AIManagerExamples.filler String.length]; congruence.
Qed.

(** *** The loop *)

(** From any loop state, the loop adds the texts of a prefix of the
    remaining documents: each document of the prefix fitted when its turn
    came, and the document after the prefix, if there is one, did not. *)
Lemma collect_prefix (self : t) (docs : list Doc) :
  forall (context_parts : list string) (total_length : Z),
  exists k : nat,
    (k <= length docs)%nat
    /\ collect self docs context_parts total_length
       = (context_parts ++ map document (take k docs))%list
    /\ (forall j : nat, (j < k)%nat ->
          total_length + text_length (map document (take (S j) docs))
          <= max_context_length self)
    /\ ((k < length docs)%nat ->
          total_length + text_length (map document (take (S k) docs))
          > max_context_length self).
Proof.
  induction docs as [|d docs IH]; intros parts total.
  - exists 0%nat. cbn [collect firstn map length]. rewrite app_nil_r.
    repeat split; lia.
  - cbn [collect].
    destruct (total + Py.len (document d) >? max_context_length self) eqn:E.
    + exists 0%nat. change (take 1 (d :: docs)) with [d].
      cbn [firstn map length text_length]. rewrite app_nil_r.
      repeat split; lia.
    + destruct (IH (parts ++ [document d])%list (total + Py.len (document d)))
        as (k & Hk & Hc & Hfit & Hstop).
      exists (S k). cbn [length]. split; [lia |]. split.
      * rewrite Hc. cbn [firstn map]. now rewrite <- app_assoc.
      * split.
        -- intros [|j] Hj.
           ++ change (take 1 (d :: docs)) with [d].
              cbn [map text_length]. lia.
           ++ specialize (Hfit j ltac:(lia)).
              change (take (S (S j)) (d :: docs)) with (d :: take (S j) docs).
              cbn [map text_length]. lia.
        -- intros Hlt. specialize (Hstop ltac:(lia)).
           change (take (S (S k)) (d :: docs)) with (d :: take (S k) docs).
           cbn [map text_length]. lia.
Qed.

(** When everything fits, everything is taken. *)
Lemma collect_all (self : t) (docs : list Doc) :
  forall (context_parts : list string) (total_length : Z),
  total_length + text_length (map document docs) <= max_context_length self ->
  collect self docs context_parts total_length
  = (context_parts ++ map document docs)%list.
Proof.
  induction docs as [|d docs IH]; intros parts total Hfit.
  - cbn [collect map]. now rewrite app_nil_r.
  - cbn [map text_length] in Hfit. cbn [collect].
    pose proof (text_length_nonneg (map document docs)).
    destruct (_ >? _) eqn:E; [lia |].
    rewrite IH by lia. cbn [map]. now rewrite <- app_assoc.
Qed.

(** The loop stops at the first document that does not fit; what comes
    after it is not looked at. *)
Lemma collect_stop (self : t) (fit : list Doc) (d : Doc) (rest : list Doc) :
  forall (context_parts : list string) (total_length : Z),
  total_length + text_length (map document fit) <= max_context_length self ->
  total_length + text_length (map document fit) + Py.len (document d)
  > max_context_length self ->
  collect self (fit ++ d :: rest) context_parts total_length
  = (context_parts ++ map document fit)%list.
Proof.
  induction fit as [|f fit IH]; intros parts total Hfit Hover.
  - cbn [app collect map text_length] in *.
    destruct (_ >? _) eqn:E; [|lia]. now rewrite app_nil_r.
  - cbn [map text_length] in Hfit, Hover.
    change ((f :: fit) ++ d :: rest)%list with (f :: (fit ++ d :: rest))%list.
    cbn [collect].
    pose proof (text_length_nonneg (map document fit)).
    destruct (_ >? _) eqn:E; [lia |].
    rewrite IH by lia. cbn [map]. now rewrite <- app_assoc.
Qed.

(** C7. Documents are taken in rank order. When the documents [fit]
    all fit the budget together and the next one, [d], would take the total
    over it, the context is the texts of [fit] joined by blank lines,
    whatever documents [rest] follow [d]: they are not tested, however
    short. In particular, for three documents of 1500, 600 and 10
    characters and the budget 2000 that [__init__] sets, the context is the
    first document alone. *)
Theorem build_context_stops_at_first_overflow
    (self : t) (fit : list Doc) (d : Doc) (rest : list Doc) :
  text_length (map document fit) <= max_context_length self ->
  text_length (map document fit) + Py.len (document d) > max_context_length self ->
  _build_context self (fit ++ d :: rest)
  = Py.join (newline ++ newline) (map document fit)
  /\ (forall (vector_db_enabled : bool) (d1 d2 d3 : Doc),
        Py.len (document d1) = 1500 ->
        Py.len (document d2) = 600 ->
        Py.len (document d3) = 10 ->
        _build_context (__init__ vector_db_enabled) [d1; d2; d3] = document d1).
Proof.
  intros Hfit Hover. split.
  - unfold _build_context. now rewrite collect_stop by lia.
  - intros e d1 d2 d3 H1 H2 H3. unfold _build_context.
    rewrite (collect_stop (__init__ e) [d1] d2 [d3]);
      cbn [map text_length max_context_length __init__ app]; try lia.
    reflexivity.
Qed.

Lemma build_context_stops_at_first_overflow_witness :
  text_length (map document [doc (AIManagerExamples.filler 1500)])
  <= max_context_length (__init__ true)
  /\ text_length (map document [doc (AIManagerExamples.filler 1500)])
     + Py.len (document (doc (AIManagerExamples.filler 600)))
     > max_context_length (__init__ true)
  /\ _build_context (__init__ true) three_ranked_docs
     = AIManagerExamples.filler 1500.
Proof.
  assert (H1 : text_length (map document [doc (AIManagerExamples.filler 1500)])
               <= max_context_length (__init__ true))
    by (vm_compute; discriminate).
  assert (H2 : text_length (map document [doc (AIManagerExamples.filler 1500)])
               + Py.len (document (doc (AIManagerExamples.filler 600)))
               > max_context_length (__init__ true))
    by (vm_compute; reflexivity).
  split; [exact H1 | split; [exact H2 |]].
  exact (proj1 (build_context_stops_at_first_overflow
                  (__init__ true) [doc (AIManagerExamples.filler 1500)]
                  (doc (AIManagerExamples.filler 600))
                  [doc (AIManagerExamples.filler 10)] H1 H2)).
Defined.

(** *** Separators are not counted *)

Lemma len_separator : Py.len (newline ++ newline) = 2.
Proof. reflexivity. Qed.

(** The texts taken never add up to more than a budget that is not
    negative. *)
Lemma collected_text_within_budget (self : t) (docs : list Doc) :
  0 <= max_context_length self ->
  text_length (collect self docs [] 0) <= max_context_length self.
Proof.
  intros Hb.
  destruct (collect_prefix self docs [] 0) as (k & Hk & Hc & Hfit & _).
  rewrite Hc. cbn [app]. destruct k as [|k].
  - cbn [firstn map text_length]. exact Hb.
  - specialize (Hfit k ltac:(lia)). lia.
Qed.

Lemma text_length_repeat_x (n : nat) :
  text_length (map document (repeat (doc "x") n)) = Z.of_nat n.
Proof.
  induction n as [|n IH]; [reflexivity |].
  cbn [repeat map text_length]. rewrite IH.
  change (Py.len (document (doc "x"))) with 1. lia.
Qed.

Lemma tight_docs_length (budget k : Z) :
  1 <= k <= budget + 1 ->
  text_length (map document (tight_docs budget k)) = budget
  /\ Z.of_nat (length (map document (tight_docs budget k))) = k.
Proof.
  intros Hk. unfold tight_docs. cbn [map text_length length document doc].
  rewrite text_length_repeat_x, len_filler, length_map, repeat_length.
  lia.
Qed.

(** C9. The budget test adds up the lengths of the document texts only.
    With a budget that is not negative, the texts taken never total more
    than the budget; the context returned is those texts with a
    two-character separator between neighbours, so with [k >= 1] texts
    taken its length is the texts' total plus [2 * (k - 1)], at most
    [budget + 2 * (k - 1)]; and that bound is reached: for each [k] from 1
    to [budget + 1] there are documents of which [k] are taken and whose
    context has exactly [budget + 2 * (k - 1)] characters. *)
Theorem build_context_budget_counts_texts_only (self : t) (docs : list Doc) :
  0 <= max_context_length self ->
  text_length (collect self docs [] 0) <= max_context_length self
  /\ (collect self docs [] 0 = [] -> _build_context self docs = "")
  /\ (collect self docs [] 0 <> [] ->
      Py.len (_build_context self docs)
      = text_length (collect self docs [] 0)
        + 2 * (Z.of_nat (length (collect self docs [] 0)) - 1)
      /\ Py.len (_build_context self docs)
         <= max_context_length self
            + 2 * (Z.of_nat (length (collect self docs [] 0)) - 1))
  /\ (forall k : Z,
        1 <= k <= max_context_length self + 1 ->
        exists docs' : list Doc,
          Z.of_nat (length (collect self docs' [] 0)) = k
          /\ Py.len (_build_context self docs')
             = max_context_length self + 2 * (k - 1)).
Proof.
  intros Hb.
  pose proof (collected_text_within_budget self docs Hb) as Hsum.
  split; [exact Hsum |]. split; [| split].
  - intros Hnil. unfold _build_context. now rewrite Hnil.
  - intros Hne. unfold _build_context.
    rewrite len_join by exact Hne. rewrite len_separator. lia.
  - intros k Hk. exists (tight_docs (max_context_length self) k).
    destruct (tight_docs_length (max_context_length self) k Hk) as [Ht Hl].
    assert (Hc : collect self (tight_docs (max_context_length self) k) [] 0
                 = map document (tight_docs (max_context_length self) k))
      by (rewrite collect_all by lia; reflexivity).
    unfold _build_context. rewrite Hc. split; [exact Hl |].
    rewrite len_join, len_separator, Ht, Hl; [lia |].
    unfold tight_docs. discriminate.
Qed.

Lemma build_context_budget_counts_texts_only_witness :
  0 <= max_context_length (__init__ true)
  /\ text_length (collect (__init__ true) two_docs_of_1000 [] 0) = 2000
  /\ Py.len (_build_context (__init__ true) two_docs_of_1000) = 2002
  /\ text_length (collect (__init__ true) two_docs_of_1000 [] 0)
     <= max_context_length (__init__ true).
Proof.
  assert (H0 : 0 <= max_context_length (__init__ true))
    by (vm_compute; discriminate).
  split; [exact H0 |].
  split; [vm_compute; reflexivity |].
  split; [vm_compute; reflexivity |].
  exact (proj1 (build_context_budget_counts_texts_only
                  (__init__ true) two_docs_of_1000 H0)).
Defined.

End RAGFacts.

(** ** Strings *)

Module StrFacts.

Lemma append_nil_l (s : string) : (EmptyString ++ s)%string = s.
Proof. reflexivity. Qed.

Lemma append_cons (c : ascii) (s1 s2 : string) :
  (String c s1 ++ s2)%string = String c (s1 ++ s2).
Proof. reflexivity. Qed.

Lemma lower_char_idempotent (c : ascii) :
  Py.lower_char (Py.lower_char c) = Py.lower_char c.
Proof. destruct c as [[] [] [] [] [] [] [] []]; reflexivity. Qed.

Lemma lower_idempotent (s : string) : Py.lower (Py.lower s) = Py.lower s.
Proof.
  induction s as [|c s IH]; cbn [Py.lower]; [reflexivity |].
  now rewrite lower_char_idempotent, IH.
Qed.


Lemma lower_append (s1 s2 : string) :
  Py.lower (s1 ++ s2) = (Py.lower s1 ++ Py.lower s2)%string.
Proof.
  induction s1 as [|c s1 IH].
  - reflexivity.
  - rewrite append_cons. cbn [Py.lower]. now rewrite append_cons, IH.
Qed.

(** White space has no case. *)
Lemma is_space_lower_char (c : ascii) :
  AIManager.is_space (Py.lower_char c) = AIManager.is_space c.
Proof. destruct c as [[] [] [] [] [] [] [] []]; reflexivity. Qed.

Lemma prefix_empty (s : string) : String.prefix "" s = true.
Proof. now destruct s. Qed.

Lemma prefix_refl (s : string) : String.prefix s s = true.
Proof.
  induction s as [|c s IH]; cbn [String.prefix]; [reflexivity |].
  destruct (ascii_dec c c); [exact IH | congruence].
Qed.

Lemma prefix_append (n a b : string) :
  String.prefix n a = true -> String.prefix n (a ++ b) = true.
Proof.
  revert a. induction n as [|c n IH]; intros a H.
  - apply prefix_empty.
  - destruct a as [|c' a]; cbn [String.prefix] in H; [discriminate |].
    rewrite append_cons. cbn [String.prefix].
    destruct (ascii_dec c c'); [now apply IH | discriminate].
Qed.

Lemma contains_empty (s : string) : Py.contains "" s = true.
Proof. destruct s; reflexivity. Qed.

Lemma contains_prefix (n s : string) :
  String.prefix n s = true -> Py.contains n s = true.
Proof. intros H. destruct s; cbn [Py.contains]; now rewrite H. Qed.

Lemma contains_refl (s : string) : Py.contains s s = true.
Proof. apply contains_prefix, prefix_refl. Qed.

Lemma contains_cons (n : string) (c : ascii) (s : string) :
  Py.contains n s = true -> Py.contains n (String c s) = true.
Proof. intros H. cbn [Py.contains]. rewrite H. apply orb_true_r. Qed.

(** A substring of the right part is a substring of the whole. *)
Lemma contains_append_r (n a b : string) :
  Py.contains n b = true -> Py.contains n (a ++ b) = true.
Proof.
  intros H. induction a as [|c a IH].
  - exact H.
  - rewrite append_cons. now apply contains_cons.
Qed.

(** A substring of the left part is a substring of the whole. *)
Lemma contains_append_l (n a b : string) :
  Py.contains n a = true -> Py.contains n (a ++ b) = true.
Proof.
  induction a as [|c a IH]; intros H.
  - cbn [Py.contains] in H. rewrite orb_false_r in H.
    apply contains_prefix. now apply (prefix_append n "" b).
  - cbn [Py.contains] in H. apply orb_true_iff in H as [H | H].
    + apply contains_prefix. now apply prefix_append.
    + rewrite append_cons. apply contains_cons. now apply IH.
Qed.

Lemma len_prefix_of (n : nat) (s : string) :
  Py.len (PyStr.prefix_of n s) <= Z.of_nat n.
Proof.
  unfold Py.len. revert s. induction n as [|n IH]; intros s.
  - destruct s; cbn [PyStr.prefix_of String.length]; lia.
  - destruct s as [|c s]; cbn [PyStr.prefix_of String.length]; [lia |].
    specialize (IH s). lia.
Qed.

End StrFacts.

(** ** Facts, patterns, search and summary of the memory *)

Module MemoryStoreFacts.
Import Memory MemoryStore MoreExamples.

(** X1. A fact that was remembered is recalled with the value given, the
    last write winning; every other key recalls what it did before, and the
    conversation log, the preferences and the pattern counts are untouched. *)
Theorem remember_then_recall (self : t) (now key value : string) :
  recall (remember self now key value) key = Some value
  /\ (forall now' value',
        recall (remember (remember self now key value) now' key value') key
        = Some value')
  /\ (forall other, other <> key ->
        recall (remember self now key value) other = recall self other)
  /\ conversations (remember self now key value) = conversations self
  /\ user_preferences (remember self now key value) = user_preferences self
  /\ learned_patterns (remember self now key value) = learned_patterns self.
Proof.
  unfold recall, remember. cbn [memory with_memory].
  split; [now rewrite lookup_insert_eq |].
  split; [intros; now rewrite lookup_insert_eq |].
  split; [| repeat split].
  intros other Hne. now rewrite lookup_insert_ne by congruence.
Qed.

(** X2. [forget] answers true exactly when the key held a fact; after it
    the key recalls nothing, every other key recalls what it did before, and
    forgetting a key that holds nothing leaves the store as it was. *)
Theorem forget_removes_only_that_key (self : t) (key : string) :
  (snd (forget self key) = true <-> recall self key <> None)
  /\ recall (fst (forget self key)) key = None
  /\ (forall other, other <> key ->
        recall (fst (forget self key)) other = recall self other)
  /\ (recall self key = None -> fst (forget self key) = self).
Proof.
  unfold forget, recall.
  destruct (memory self !! key) as [fact|] eqn:E; cbn [fst snd memory with_memory].
  - split; [split; [discriminate | reflexivity] |].
    split; [now rewrite lookup_delete_eq |].
    split; [| discriminate].
    intros other Hne. now rewrite lookup_delete_ne by congruence.
  - rewrite E. split; [split; [discriminate | congruence] |].
    split; [reflexivity |]. split; [reflexivity | reflexivity].
Qed.

(** X3. A preference that was set is read back, whatever default the
    reader passes; a key never set reads as the default; setting one key
    changes no other. *)
Theorem set_then_get_preference (self : t) (key : string) (value default_ : Py.num) :
  get_preference (set_preference self key value) key default_ = value
  /\ (user_preferences self !! key = None ->
      get_preference self key default_ = default_)
  /\ (forall other, other <> key ->
        get_preference (set_preference self key value) other default_
        = get_preference self other default_).
Proof.
  unfold get_preference, set_preference.
  cbn [user_preferences with_user_preferences].
  split; [now rewrite lookup_insert_eq |]. split.
  - now intros ->.
  - intros other Hne. now rewrite lookup_insert_ne by congruence.
Qed.

(** *** Search *)

Lemma filter_sublist {A : Type} (f : A -> bool) (l : list A) :
  sublist (List.filter f l) l.
Proof.
  induction l as [|x l IH]; cbn [List.filter]; [constructor |].
  destruct (f x); now constructor.
Qed.

Lemma filter_all {A : Type} (f : A -> bool) (l : list A) :
  (forall x, f x = true) -> List.filter f l = l.
Proof.
  intros H. induction l as [|x l IH]; cbn [List.filter]; [reflexivity |].
  now rewrite H, IH.
Qed.

(** X4. [search_conversations] returns the conversations of the log
    whose user text or assistant text contains the query, compared in lower
    case: those and no others, in the order of the log. The empty query
    matches every conversation. *)
Theorem search_conversations_selects_matches (self : t) (query : string) :
  (forall conv,
     In conv (search_conversations self query)
     <-> In conv (conversations self) /\ matches query conv = true)
  /\ sublist (search_conversations self query) (conversations self)
  /\ search_conversations self "" = conversations self.
Proof.
  unfold search_conversations. split; [| split].
  - intros conv. apply List.filter_In.
  - apply filter_sublist.
  - apply filter_all. intros conv.
    change (Py.lower "") with "". now rewrite StrFacts.contains_empty.
Qed.

(** X5. The search ignores the case of the query: a query and its
    lower-case form, and any two queries that agree in lower case, find the
    same conversations. *)
Theorem search_conversations_ignores_case (self : t) (query : string) :
  search_conversations self (Py.lower query) = search_conversations self query
  /\ (forall query',
        Py.lower query' = Py.lower query ->
        search_conversations self query' = search_conversations self query).
Proof.
  unfold search_conversations. split.
  - now rewrite StrFacts.lower_idempotent.
  - now intros query' ->.
Qed.

(** *** Summary *)

Lemma append_assoc (a b c : string) :
  ((a ++ b) ++ c)%string = (a ++ b ++ c)%string.
Proof.
  induction a as [|x a IH]; [reflexivity |].
  rewrite !StrFacts.append_cons. now rewrite IH.
Qed.

(** A summary that grows at its end keeps its beginning. *)
Lemma fold_append_shape {A : Type} (g : A -> string) (l : list A) :
  forall init : string,
  exists rest : string,
    fold_left (fun summary x => (summary ++ g x)%string) l init
    = (init ++ rest)%string.
Proof.
  induction l as [|x l IH]; intros init; cbn [fold_left].
  - exists "". induction init as [|c init IHi]; [reflexivity |].
    rewrite StrFacts.append_cons. now rewrite <- IHi.
  - destruct (IH (init ++ g x)%string) as [rest Hrest].
    exists (g x ++ rest)%string. now rewrite Hrest, append_assoc.
Qed.

Lemma fold_append_length {A : Type} (g : A -> string) (bound : Z) (l : list A) :
  (forall x, Py.len (g x) <= bound) ->
  forall init : string,
  Py.len (fold_left (fun summary x => (summary ++ g x)%string) l init)
  <= Py.len init + bound * Z.of_nat (length l).
Proof.
  intros Hg. induction l as [|x l IH]; intros init; cbn [fold_left length].
  - lia.
  - specialize (IH (init ++ g x)%string). rewrite RAGFacts.len_append in IH.
    specialize (Hg x). lia.
Qed.

Lemma recent_empty_iff (self : t) (limit : Z) :
  0 <= limit ->
  get_recent_conversations self limit = [] <-> conversations self = [].
Proof.
  intros Hl. destruct (Z.eq_dec limit 0) as [-> | Hne].
  - now rewrite MemoryFacts.get_recent_conversations_zero.
  - destruct (MemoryFacts.get_recent_conversations_positive self limit ltac:(lia))
      as [_ Hlen].
    split; intros H.
    + rewrite H in Hlen. cbn [length] in Hlen.
      destruct (conversations self); [reflexivity | cbn [length] in Hlen; lia].
    + rewrite H in Hlen. cbn [length] in Hlen. rewrite Nat.min_0_r in Hlen.
      now destruct (get_recent_conversations self limit).
Qed.

(** X6. For a limit that is not negative, [get_context_summary] answers
    "No recent conversation history." exactly when the log is empty; on any
    other log the summary opens with its heading. *)
Theorem context_summary_reports_empty_log (self : t) (limit : Z) :
  0 <= limit ->
  (get_context_summary self limit = "No recent conversation history."
   <-> conversations self = [])
  /\ (conversations self <> [] ->
      String.prefix ("Recent conversation context:" ++ RAGManager.newline)
        (get_context_summary self limit) = true).
Proof.
  intros Hl. pose proof (recent_empty_iff self limit Hl) as Hiff.
  unfold get_context_summary.
  destruct (get_recent_conversations self limit) as [|conv recent] eqn:E.
  - split; [split; [intros _; now apply Hiff | reflexivity] |].
    intros Hne. exfalso. apply Hne. now apply Hiff.
  - assert (Hne : conversations self <> []).
    { intros H. apply Hiff in H. discriminate. }
    set (g := fun conv : Conversation =>
                (("User: " ++ PyStr.prefix_of 100 (user conv) ++ "..."
                  ++ RAGManager.newline)
                 ++ ("Assistant: " ++ PyStr.prefix_of 100 (assistant conv) ++ "..."
                     ++ RAGManager.newline ++ RAGManager.newline))%string).
    change (fold_left _ (conv :: recent) _)
      with (fold_left (fun summary x => (summary ++ g x)%string) (conv :: recent)
              ("Recent conversation context:" ++ RAGManager.newline)%string).
    destruct (fold_append_shape g (conv :: recent)
                ("Recent conversation context:" ++ RAGManager.newline)%string)
      as [rest Hrest].
    rewrite Hrest. split.
    + split; [| intros H; contradiction].
      intros Heq. apply (f_equal (String.get 0)) in Heq.
      vm_compute in Heq. discriminate.
    + intros _. apply StrFacts.prefix_append, StrFacts.prefix_refl.
Qed.

Lemma context_summary_reports_empty_log_witness :
  0 <= 2
  /\ conversations weather_log <> []
  /\ String.prefix ("Recent conversation context:" ++ RAGManager.newline)
       (get_context_summary weather_log 2) = true.
Proof.
  assert (H0 : 0 <= 2) by lia.
  assert (Hne : conversations weather_log <> []) by discriminate.
  split; [exact H0 | split; [exact Hne |]].
  exact (proj2 (context_summary_reports_empty_log weather_log 2 H0) Hne).
Defined.

(** X7. With a positive limit the summary is bounded by the limit, not
    by the size of the log or of its texts: at most 29 characters of heading
    and 226 characters for each of at most [limit] conversations, each text
    being cut to its first 100 characters. *)
Theorem context_summary_length_bounded (self : t) (limit : Z) :
  0 < limit ->
  Py.len (get_context_summary self limit) <= 29 + 226 * limit.
Proof.
  intros Hl.
  destruct (MemoryFacts.get_recent_conversations_positive self limit Hl)
    as [_ Hlen].
  unfold get_context_summary.
  destruct (get_recent_conversations self limit) as [|conv recent] eqn:E.
  - change (Py.len no_recent_history) with 31. lia.
  - set (g := fun conv : Conversation =>
                (("User: " ++ PyStr.prefix_of 100 (user conv) ++ "..."
                  ++ RAGManager.newline)
                 ++ ("Assistant: " ++ PyStr.prefix_of 100 (assistant conv) ++ "..."
                     ++ RAGManager.newline ++ RAGManager.newline))%string).
    change (fold_left _ (conv :: recent) _)
      with (fold_left (fun summary x => (summary ++ g x)%string) (conv :: recent)
              ("Recent conversation context:" ++ RAGManager.newline)%string).
    assert (Hg : forall x, Py.len (g x) <= 226).
    { intros x. unfold g. rewrite !RAGFacts.len_append.
      pose proof (StrFacts.len_prefix_of 100 (user x)).
      pose proof (StrFacts.len_prefix_of 100 (assistant x)).
      change (Py.len "User: ") with 6. change (Py.len "Assistant: ") with 11.
      change (Py.len "...") with 3. change (Py.len RAGManager.newline) with 1.
      lia. }
    pose proof (fold_append_length g 226 (conv :: recent) Hg
                  ("Recent conversation context:" ++ RAGManager.newline)%string)
      as Hb.
    change (Py.len ("Recent conversation context:" ++ RAGManager.newline)) with 29
      in Hb.
    lia.
Qed.

Lemma context_summary_length_bounded_witness :
  0 < 2 /\ Py.len (get_context_summary weather_log 2) <= 29 + 226 * 2.
Proof.
  assert (H0 : 0 < 2) by lia.
  split; [exact H0 |].
  exact (context_summary_length_bounded weather_log 2 H0).
Defined.

End MemoryStoreFacts.

(** ** Learning from interactions *)

Module LearningMoreFacts.
Import LearningManager Learning MoreExamples.

(** *** Patterns *)

Lemma frequency_learn_pattern (m : Memory.t) (q p : string) :
  MemoryStore.get_pattern_frequency (MemoryStore.learn_pattern m q) p
  = MemoryStore.get_pattern_frequency m p
    + Z.of_nat (count_occ string_dec [q] p).
Proof.
  unfold MemoryStore.get_pattern_frequency, MemoryStore.learn_pattern.
  cbn [Memory.learned_patterns MemoryStore.with_learned_patterns count_occ].
  destruct (string_dec q p) as [-> | Hne].
  - rewrite lookup_insert_eq. unfold default at 1. cbn [from_option id]. lia.
  - rewrite lookup_insert_ne by exact Hne. lia.
Qed.

Lemma learn_pattern_keeps_rest (m : Memory.t) (q : string) :
  Memory.conversations (MemoryStore.learn_pattern m q) = Memory.conversations m
  /\ Memory.user_preferences (MemoryStore.learn_pattern m q) = Memory.user_preferences m
  /\ Memory.memory (MemoryStore.learn_pattern m q) = Memory.memory m
  /\ Memory.max_history (MemoryStore.learn_pattern m q) = Memory.max_history m.
Proof. repeat split. Qed.

Lemma learn_words_keeps_rest (words : list string) :
  forall m : Memory.t,
  Memory.conversations (learn_words m words) = Memory.conversations m
  /\ Memory.user_preferences (learn_words m words) = Memory.user_preferences m
  /\ Memory.memory (learn_words m words) = Memory.memory m
  /\ Memory.max_history (learn_words m words) = Memory.max_history m.
Proof.
  induction words as [|w rest IH]; intros m; [repeat split |].
  cbn [learn_words].
  destruct (IH (MemoryStore.learn_pattern
                  match rest with
                  | [] => m
                  | w' :: _ => MemoryStore.learn_pattern m (w ++ " " ++ w')%string
                  end w)) as (H1 & H2 & H3 & H4).
  rewrite H1, H2, H3, H4. destruct rest; repeat split.
Qed.

(** The loop raises each frequency by the number of times the pattern
    occurs among the words and the bigrams of neighbours. *)
Lemma learn_words_frequency (words : list string) :
  forall (m : Memory.t) (p : string),
  MemoryStore.get_pattern_frequency (learn_words m words) p
  = MemoryStore.get_pattern_frequency m p
    + Z.of_nat (count_occ string_dec (patterns_of words) p).
Proof.
  induction words as [|w rest IH]; intros m p.
  - cbn [learn_words patterns_of count_occ]. lia.
  - cbn [learn_words patterns_of]. rewrite IH.
    destruct rest as [|w' rest'].
    + rewrite frequency_learn_pattern. cbn [patterns_of count_occ].
      destruct (string_dec w p); lia.
    + rewrite !frequency_learn_pattern.
      change ((w ++ " " ++ w')%string :: w :: patterns_of (w' :: rest'))
        with ([(w ++ " " ++ w')%string] ++ [w] ++ patterns_of (w' :: rest'))%list.
      rewrite !count_occ_app. lia.
Qed.

Lemma word_in_patterns (words : list string) (w : string) :
  In w words -> In w (patterns_of words).
Proof.
  induction words as [|x rest IH]; [intros [] |].
  intros [-> | Hin]; cbn [patterns_of]; destruct rest as [|x' rest'];
    cbn [In]; auto.
Qed.

(** X8. [_extract_and_learn_patterns] lower-cases the text, splits it at
    white space and counts every word and every pair of neighbouring words:
    each frequency rises by the number of times the pattern occurs among
    them, so every word of the text ends with a frequency of at least one
    more than before; the conversation log, the preferences and the facts
    are untouched. *)
Theorem extract_and_learn_patterns_counts
    (self : t) (m : Memory.t) (text : string) :
  memory self = Some m ->
  exists (self' : t) (m' : Memory.t),
    _extract_and_learn_patterns self text = Py.Returned self'
    /\ memory self' = Some m'
    /\ (forall p,
          MemoryStore.get_pattern_frequency m' p
          = MemoryStore.get_pattern_frequency m p
            + Z.of_nat (count_occ string_dec
                          (patterns_of (PyStr.split (Py.lower text))) p))
    /\ (forall w, In w (PyStr.split (Py.lower text)) ->
          MemoryStore.get_pattern_frequency m' w
          >= MemoryStore.get_pattern_frequency m w + 1)
    /\ Memory.conversations m' = Memory.conversations m
    /\ Memory.user_preferences m' = Memory.user_preferences m
    /\ Memory.memory m' = Memory.memory m.
Proof.
  intros Hm.
  exists (match PyStr.split (Py.lower text) with
          | [] => self
          | _ => with_memory self (learn_words m (PyStr.split (Py.lower text)))
          end), (learn_words m (PyStr.split (Py.lower text))).
  destruct (learn_words_keeps_rest (PyStr.split (Py.lower text)) m)
    as (H1 & H2 & H3 & _).
  split.
  { unfold _extract_and_learn_patterns, get_memory. rewrite Hm.
    now destruct (PyStr.split (Py.lower text)). }
  split.
  { destruct (PyStr.split (Py.lower text)); [exact Hm | reflexivity]. }
  split; [intros p; apply learn_words_frequency |].
  split; [| now repeat split].
  intros w Hin. rewrite learn_words_frequency.
  pose proof (proj1 (count_occ_In string_dec _ w) (word_in_patterns _ w Hin)).
  lia.
Qed.

Lemma extract_and_learn_patterns_counts_witness :
  memory learner = Some (MemoryExamples.store_with_cap 1000)
  /\ exists (self' : t) (m' : Memory.t),
       _extract_and_learn_patterns learner "Hello World hello" = Py.Returned self'
       /\ memory self' = Some m'
       /\ MemoryStore.get_pattern_frequency m' "hello" = 2
       /\ MemoryStore.get_pattern_frequency m' "hello world" = 1.
Proof.
  assert (Hm : memory learner = Some (MemoryExamples.store_with_cap 1000))
    by reflexivity.
  split; [exact Hm |].
  destruct (extract_and_learn_patterns_counts learner _ "Hello World hello" Hm)
    as (self' & m' & Hr & Hm' & Hf & _).
  exists self', m'. split; [exact Hr |]. split; [exact Hm' |].
  split; rewrite Hf; reflexivity.
Defined.

Lemma split_blank (s : string) :
  all_space s = true -> PyStr.split (Py.lower s) = [].
Proof.
  unfold PyStr.split. induction s as [|c s IH]; [reflexivity |].
  cbn [all_space Py.lower PyStr.split_from]. intros H.
  apply andb_true_iff in H as [Hc Hs].
  rewrite StrFacts.is_space_lower_char, Hc.
  change (String.eqb "" "") with true. cbv iota. now apply IH.
Qed.

(** X9. A text that is empty or made of white space only teaches
    nothing: [_extract_and_learn_patterns] returns the manager as it was, and
    does so even on a manager without a memory, where any other text makes
    it raise. *)
Theorem blank_text_learns_nothing (self : t) (text : string) :
  all_space text = true ->
  _extract_and_learn_patterns self text = Py.Returned self
  /\ (memory self = None ->
      forall text', PyStr.split (Py.lower text') <> [] ->
      _extract_and_learn_patterns self text' = Py.Raised Py.AttributeError).
Proof.
  intros Hb. unfold _extract_and_learn_patterns.
  rewrite (split_blank text Hb). split; [reflexivity |].
  intros Hm text' Hne. unfold get_memory. rewrite Hm.
  destruct (PyStr.split (Py.lower text')); [congruence | reflexivity].
Qed.

Lemma blank_text_learns_nothing_witness :
  all_space "   " = true
  /\ _extract_and_learn_patterns learner "   " = Py.Returned learner.
Proof.
  assert (Hb : all_space "   " = true) by reflexivity.
  split; [exact Hb |].
  exact (proj1 (blank_text_learns_nothing learner "   " Hb)).
Defined.

(** *** Interactions *)

Lemma last_drop {A : Type} (l : list A) (k : nat) :
  (k < length l)%nat -> last (drop k l) = last l.
Proof.
  intros Hk. rewrite !last_lookup, lookup_drop, length_drop. f_equal. lia.
Qed.

(** With a cap that is not negative the turn just appended is the last
    of the log, whether or not the log was cut and whether or not the
    directory could be made. *)
Lemma add_conversation_last (m : Memory.t) (fs : Os.filesystem)
    (now user_input response : string) (metadata : option (gmap string Py.num)) :
  0 <= Memory.max_history m ->
  last (Memory.conversations
          (Memory.add_conversation m fs now user_input response metadata))
  = Some (Memory.mkConversation now user_input response (default ∅ metadata)).
Proof.
  intros Hcap. unfold Memory.add_conversation, Memory._save_conversations.
  cbn [Memory.conversation_file Memory.max_history Memory.conversations
       Memory.with_conversations].
  destruct (Os.makedirs fs _); [| apply last_snoc].
  destruct (_ >? _) eqn:E; [| apply last_snoc].
  cbn [Memory.conversations Memory.with_conversations].
  destruct (Z.eq_dec (Memory.max_history m) 0) as [-> | Hne].
  - rewrite MemoryFacts.slice_from_neg_zero. apply last_snoc.
  - rewrite MemoryFacts.slice_from_neg by lia.
    rewrite last_drop; [apply last_snoc |].
    rewrite length_app in *. cbn [length] in *. lia.
Qed.

Lemma add_conversation_keeps_rest (m : Memory.t) (fs : Os.filesystem)
    (now user_input response : string) (metadata : option (gmap string Py.num)) :
  Memory.user_preferences
    (Memory.add_conversation m fs now user_input response metadata)
  = Memory.user_preferences m
  /\ Memory.learned_patterns
       (Memory.add_conversation m fs now user_input response metadata)
     = Memory.learned_patterns m
  /\ Memory.max_history
       (Memory.add_conversation m fs now user_input response metadata)
     = Memory.max_history m.
Proof.
  unfold Memory.add_conversation, Memory._save_conversations.
  cbn [Memory.conversation_file Memory.max_history Memory.conversations
       Memory.with_conversations].
  destruct (Os.makedirs fs _); [| repeat split].
  destruct (_ >? _); repeat split.
Qed.

Lemma update_preferences_without_rate (self : t) (user_input : string)
    (metadata : option (gmap string Py.num)) :
  (forall md, metadata = Some md -> md !! "preferred_voice_rate" = None) ->
  _update_preferences self user_input metadata = Py.Returned self.
Proof.
  intros H. unfold _update_preferences. destruct metadata as [md|]; [|reflexivity].
  rewrite (H md eq_refl). now destruct (bool_decide (md = ∅)).
Qed.

(** What [_extract_and_learn_patterns] leaves on a manager with a memory. *)
Lemma extract_result (self : t) (m : Memory.t) (text : string) :
  memory self = Some m ->
  exists self' : t,
    _extract_and_learn_patterns self text = Py.Returned self'
    /\ memory self' = Some (learn_words m (PyStr.split (Py.lower text)))
    /\ learning_rate self' = learning_rate self.
Proof.
  intros Hm. unfold _extract_and_learn_patterns, get_memory. rewrite Hm.
  destruct (PyStr.split (Py.lower text)) as [|w ws].
  - exists self. now repeat split.
  - eexists. repeat split.
Qed.

(** X10. On an enabled manager whose cap is not negative,
    [process_interaction] with metadata that carries no
    [preferred_voice_rate] returns normally; afterwards the turn just given
    is the last of the log, every word of the user text has gained at least
    one in frequency, and the preferences are as they were. *)
Theorem process_interaction_records_turn
    (self : t) (m : Memory.t) (fs : Os.filesystem)
    (now user_input response : string) (metadata : option (gmap string Py.num)) :
  enabled self = true ->
  memory self = Some m ->
  0 <= Memory.max_history m ->
  (forall md, metadata = Some md -> md !! "preferred_voice_rate" = None) ->
  snd (process_interaction self fs now user_input response metadata)
  = Py.Returned tt
  /\ exists m' : Memory.t,
       memory (fst (process_interaction self fs now user_input response metadata))
       = Some m'
       /\ last (Memory.conversations m')
          = Some (Memory.mkConversation now user_input response (default ∅ metadata))
       /\ (forall w, In w (PyStr.split (Py.lower user_input)) ->
             MemoryStore.get_pattern_frequency m' w
             >= MemoryStore.get_pattern_frequency m w + 1)
       /\ Memory.user_preferences m' = Memory.user_preferences m.
Proof.
  intros He Hm Hcap Hmd.
  set (m1 := Memory.add_conversation m fs now user_input response metadata).
  destruct (extract_result (with_memory self m1) m1 user_input eq_refl)
    as (self2 & Hr & Hm2 & _).
  assert (Hrun : process_interaction self fs now user_input response metadata
                 = (self2, Py.Returned tt)).
  { unfold process_interaction, get_memory at 1. rewrite He, Hm. cbn [negb].
    fold m1.
    now rewrite Hr, (update_preferences_without_rate self2 user_input metadata Hmd). }
  rewrite Hrun. cbn [fst snd]. split; [reflexivity |].
  exists (learn_words m1 (PyStr.split (Py.lower user_input))).
  split; [exact Hm2 |].
  destruct (learn_words_keeps_rest (PyStr.split (Py.lower user_input)) m1)
    as (H1 & H2 & _).
  destruct (add_conversation_keeps_rest m fs now user_input response metadata)
    as (H3 & H4 & _).
  rewrite H1, H2. split; [now apply add_conversation_last |].
  split; [| exact H3].
  intros w Hin. rewrite learn_words_frequency.
  pose proof (proj1 (count_occ_In string_dec _ w) (word_in_patterns _ w Hin)).
  unfold MemoryStore.get_pattern_frequency in *. fold m1 in H4.
  rewrite H4 in *. lia.
Qed.

Lemma process_interaction_records_turn_witness :
  enabled learner = true
  /\ memory learner = Some (MemoryExamples.store_with_cap 1000)
  /\ 0 <= Memory.max_history (MemoryExamples.store_with_cap 1000)
  /\ snd (process_interaction learner MemoryExamples.fs_ok "2024-01-01T00:00:00"
            "Hello there" "Hi" None) = Py.Returned tt.
Proof.
  assert (H1 : enabled learner = true) by reflexivity.
  assert (H2 : memory learner = Some (MemoryExamples.store_with_cap 1000))
    by reflexivity.
  assert (H3 : 0 <= Memory.max_history (MemoryExamples.store_with_cap 1000))
    by (vm_compute; discriminate).
  split; [exact H1 | split; [exact H2 | split; [exact H3 |]]].
  refine (proj1 (process_interaction_records_turn learner _ MemoryExamples.fs_ok
                   "2024-01-01T00:00:00" "Hello there" "Hi" None H1 H2 H3 _)).
  intros md Hmd. discriminate Hmd.
Defined.

(** *** A rate that is not a finite number *)

Lemma fmul_nonfinite (x y : Py.float) :
  nonfinite x = true -> nonfinite (Py.fmul x y) = true.
Proof. destruct x, y; try discriminate; reflexivity. Qed.

Lemma fadd_nonfinite (x y : Py.float) :
  nonfinite y = true -> nonfinite (Py.fadd x y) = true.
Proof.
  destruct x as [sx|sx| |sx mx ex], y as [sy|sy| |sy my ey];
    try discriminate; try reflexivity.
  destruct sx, sy; reflexivity.
Qed.

Lemma int_nonfinite_raises (x : Py.float) :
  nonfinite x = true -> Py.raises (Py.int (Py.Float x)).
Proof.
  unfold Py.raises.
  destruct x; try discriminate; intros _; cbn [Py.int Py.int_of_float]; eauto.
Qed.

Lemma raises_bind_raised {A B : Type} (e : Py.exn) (k : A -> Py.result B) :
  Py.raises (Py.bind (Py.Raised e) k).
Proof. now exists e. Qed.

Lemma raises_bind {A B : Type} (r : Py.result A) (k : A -> Py.result B) :
  Py.raises r -> Py.raises (Py.bind r k).
Proof. intros [e ->]. now exists e. Qed.

(** With a rate that is NaN or infinite the update raises before
    anything is stored. *)
Lemma update_preferences_nonfinite_raises (self : t) (m : Memory.t)
    (md : gmap string Py.num) (rate : Py.float) (user_input : string) :
  memory self = Some m ->
  md !! "preferred_voice_rate" = Some (Py.Float rate) ->
  nonfinite rate = true ->
  Py.raises (_update_preferences self user_input (Some md)).
Proof.
  intros Hm Hmd Hrate.
  assert (Hne : bool_decide (md = ∅) = false).
  { apply bool_decide_eq_false. intros ->. rewrite lookup_empty in Hmd.
    discriminate. }
  unfold _update_preferences, get_memory. rewrite Hne, Hmd, Hm.
  cbn [Py.bind]. unfold smoothed.
  destruct (Py.sub (Py.Int 1) (learning_rate self)) as [keep|e];
    [| apply raises_bind_raised].
  cbn [Py.bind].
  destruct (Py.mul _ keep) as [old_part|e]; [| apply raises_bind_raised].
  cbn [Py.bind]. unfold Py.mul at 1, Py.arith. cbn [Py.to_float Py.bind].
  destruct (Py.to_float (learning_rate self)) as [r|e];
    [| apply raises_bind_raised].
  cbn [Py.bind].
  pose proof (fmul_nonfinite rate r Hrate) as Hnew.
  unfold Py.add, Py.arith.
  destruct old_part as [n|x]; cbn [Py.to_float].
  - destruct (Py.float_of_int n) as [x|e]; [| apply raises_bind_raised].
    cbn [Py.bind]. apply raises_bind, int_nonfinite_raises.
    now apply fadd_nonfinite.
  - cbn [Py.bind]. apply raises_bind, int_nonfinite_raises.
    now apply fadd_nonfinite.
Qed.

(** X11. A [preferred_voice_rate] that is NaN or infinite makes
    [process_interaction] raise, from the conversion of the smoothed value
    to an integer; by then the turn is already the last of the log and its
    words are counted, and no preference has changed. *)
Theorem process_interaction_with_nonfinite_rate_raises
    (self : t) (m : Memory.t) (fs : Os.filesystem)
    (now user_input response : string) (md : gmap string Py.num)
    (rate : Py.float) :
  enabled self = true ->
  memory self = Some m ->
  0 <= Memory.max_history m ->
  md !! "preferred_voice_rate" = Some (Py.Float rate) ->
  nonfinite rate = true ->
  Py.raises (snd (process_interaction self fs now user_input response (Some md)))
  /\ exists m' : Memory.t,
       memory (fst (process_interaction self fs now user_input response (Some md)))
       = Some m'
       /\ last (Memory.conversations m')
          = Some (Memory.mkConversation now user_input response md)
       /\ (forall w, In w (PyStr.split (Py.lower user_input)) ->
             MemoryStore.get_pattern_frequency m' w
             >= MemoryStore.get_pattern_frequency m w + 1)
       /\ Memory.user_preferences m' = Memory.user_preferences m.
Proof.
  intros He Hm Hcap Hmd Hrate.
  set (m1 := Memory.add_conversation m fs now user_input response (Some md)).
  destruct (extract_result (with_memory self m1) m1 user_input eq_refl)
    as (self2 & Hr & Hm2 & _).
  destruct (update_preferences_nonfinite_raises self2 _ md rate user_input
              Hm2 Hmd Hrate) as [e Hraise].
  assert (Hrun : process_interaction self fs now user_input response (Some md)
                 = (self2, Py.Raised e)).
  { unfold process_interaction, get_memory at 1. rewrite He, Hm. cbn [negb].
    fold m1. now rewrite Hr, Hraise. }
  rewrite Hrun. cbn [fst snd]. split; [now exists e |].
  exists (learn_words m1 (PyStr.split (Py.lower user_input))).
  split; [exact Hm2 |].
  destruct (learn_words_keeps_rest (PyStr.split (Py.lower user_input)) m1)
    as (H1 & H2 & _).
  destruct (add_conversation_keeps_rest m fs now user_input response (Some md))
    as (H3 & H4 & _).
  rewrite H1, H2.
  split; [now apply (add_conversation_last m fs now user_input response (Some md)) |].
  split; [| exact H3].
  intros w Hin. rewrite learn_words_frequency.
  pose proof (proj1 (count_occ_In string_dec _ w) (word_in_patterns _ w Hin)).
  unfold MemoryStore.get_pattern_frequency in *. fold m1 in H4.
  rewrite H4 in *. lia.
Qed.

Lemma process_interaction_with_nonfinite_rate_raises_witness :
  enabled learner = true
  /\ memory learner = Some (MemoryExamples.store_with_cap 1000)
  /\ 0 <= Memory.max_history (MemoryExamples.store_with_cap 1000)
  /\ nan_rate !! "preferred_voice_rate" = Some (Py.Float S754_nan)
  /\ nonfinite S754_nan = true
  /\ Py.raises (snd (process_interaction learner MemoryExamples.fs_ok
                       "2024-01-01T00:00:00" "speak faster" "ok" (Some nan_rate))).
Proof.
  assert (H1 : enabled learner = true) by reflexivity.
  assert (H2 : memory learner = Some (MemoryExamples.store_with_cap 1000))
    by reflexivity.
  assert (H3 : 0 <= Memory.max_history (MemoryExamples.store_with_cap 1000))
    by (vm_compute; discriminate).
  assert (H4 : nan_rate !! "preferred_voice_rate" = Some (Py.Float S754_nan))
    by apply lookup_singleton_eq.
  assert (H5 : nonfinite S754_nan = true) by reflexivity.
  split; [exact H1 | split; [exact H2 | split; [exact H3 |
    split; [exact H4 | split; [exact H5 |]]]]].
  exact (proj1 (process_interaction_with_nonfinite_rate_raises learner _
                  MemoryExamples.fs_ok "2024-01-01T00:00:00" "speak faster" "ok"
                  nan_rate S754_nan H1 H2 H3 H4 H5)).
Defined.

(** *** Answers from earlier conversations *)

Lemma filter_none {A : Type} (f : A -> bool) (l : list A) :
  (forall x, In x l -> f x = false) -> List.filter f l = [].
Proof.
  induction l as [|x l IH]; intros H; cbn [List.filter]; [reflexivity |].
  rewrite (H x (or_introl eq_refl)). apply IH. intros y Hy. apply H. now right.
Qed.

(** X12. [get_contextual_response] quotes the most recent conversation
    of the log that matches the query (the user or the assistant text
    contains it, case ignored), whatever matched earlier; when no
    conversation matches it answers the empty string. *)
Theorem contextual_response_quotes_latest_match
    (self : t) (m : Memory.t) (query : string) :
  memory self = Some m ->
  (forall before conv after,
     Memory.conversations m = (before ++ conv :: after)%list ->
     matches query conv = true ->
     (forall later, In later after -> matches query later = false) ->
     get_contextual_response self query
     = Py.Returned ("Based on our previous conversation, "
                    ++ Memory.assistant conv)%string)
  /\ ((forall conv, In conv (Memory.conversations m) -> matches query conv = false) ->
      get_contextual_response self query = Py.Returned "").
Proof.
  intros Hm. unfold get_contextual_response, get_memory. rewrite Hm.
  cbn [Py.bind]. unfold MemoryStore.search_conversations.
  change (fun conv : Memory.Conversation =>
            Py.contains (Py.lower query) (Py.lower (Memory.user conv))
            || Py.contains (Py.lower query) (Py.lower (Memory.assistant conv)))
    with (matches query).
  split.
  - intros before conv after Hlog Hconv Hafter. rewrite Hlog.
    rewrite List.filter_app. cbn [List.filter]. rewrite Hconv.
    rewrite (filter_none _ after Hafter).
    now rewrite last_snoc.
  - intros Hnone. now rewrite (filter_none _ _ Hnone).
Qed.

Lemma contextual_response_quotes_latest_match_witness :
  memory (mk true (Py.Float (Py.float_dec 1 10)) (Some weather_log))
  = Some weather_log
  /\ get_contextual_response
       (mk true (Py.Float (Py.float_dec 1 10)) (Some weather_log)) "Weather"
     = Py.Returned "Based on our previous conversation, ok".
Proof.
  split; [reflexivity |].
  refine (proj1 (contextual_response_quotes_latest_match
                   (mk true (Py.Float (Py.float_dec 1 10)) (Some weather_log))
                   weather_log "Weather" eq_refl)
            [MemoryExamples.turn "What is the WEATHER today";
             MemoryExamples.turn "tell me a joke"]
            (MemoryExamples.turn "weather tomorrow") [] eq_refl eq_refl _).
  intros later [].
Defined.

End LearningMoreFacts.

(** ** The startup import of personal variables *)

Module PhenomFacts.
Import Phenom MoreExamples.

Lemma facts_remember (m : Memory.t) (now k v k' : string) :
  Memory.memory (MemoryStore.remember m now k v) !! k'
  = if string_dec k k' then Some (Memory.mkFact v now) else Memory.memory m !! k'.
Proof.
  unfold MemoryStore.remember. cbn [Memory.memory MemoryStore.with_memory].
  destruct (string_dec k k') as [-> | Hne].
  - apply lookup_insert_eq.
  - now apply lookup_insert_ne.
Qed.

Lemma recall_facts (m : Memory.t) (k : string) :
  MemoryStore.recall m k = Memory.value <$> Memory.memory m !! k.
Proof. unfold MemoryStore.recall. now destruct (Memory.memory m !! k). Qed.

(** The loop on a manager with a memory: it never raises, it leaves
    every fact that was there as it was, and every collected key holds a
    fact afterwards. *)
Lemma import_facts_spec (clock : string -> string)
    (collected : list (string * string)) :
  forall (learning : LearningManager.t) (m : Memory.t),
  LearningManager.memory learning = Some m ->
  exists (learning' : LearningManager.t) (m' : Memory.t),
    import_facts learning clock collected = (learning', Py.Returned tt)
    /\ LearningManager.memory learning' = Some m'
    /\ LearningManager.enabled learning' = LearningManager.enabled learning
    /\ LearningManager.learning_rate learning' = LearningManager.learning_rate learning
    /\ (forall k fact, Memory.memory m !! k = Some fact ->
          Memory.memory m' !! k = Some fact)
    /\ (forall k v, In (k, v) collected -> Memory.memory m' !! k <> None)
    /\ (forall k, Memory.memory m' !! k <> None ->
          Memory.memory m !! k <> None \/ In k (map fst collected))
    /\ Memory.conversations m' = Memory.conversations m
    /\ Memory.user_preferences m' = Memory.user_preferences m
    /\ Memory.learned_patterns m' = Memory.learned_patterns m.
Proof.
  induction collected as [|[k v] rest IH]; intros learning m Hm.
  - exists learning, m. cbn [import_facts In map]. repeat split; auto.
  - cbn [import_facts]. unfold Learning.recall_fact, LearningManager.get_memory.
    rewrite Hm. cbn [Py.bind]. rewrite recall_facts.
    destruct (Memory.memory m !! k) as [fact|] eqn:Ek; cbn [fmap option_fmap option_map].
    + destruct (IH learning m Hm)
        as (l' & m' & Hr & Hm' & He & Hl & Hkeep & Hin & Hnew & Hc & Hp & Hq).
      exists l', m'. repeat split; auto.
      * intros k' v' [Heq | Hin']; [| now apply (Hin k' v')].
        injection Heq as <- <-. now rewrite (Hkeep k fact Ek).
      * intros k' Hk'. destruct (Hnew k' Hk') as [? | ?]; [now left |].
        right. now right.
    + unfold Learning.remember_fact, LearningManager.get_memory.
      rewrite Hm. cbn [Py.bind].
      set (m1 := MemoryStore.remember m (clock k) k v).
      destruct (IH (LearningManager.with_memory learning m1) m1 eq_refl)
        as (l' & m' & Hr & Hm' & He & Hl & Hkeep & Hin & Hnew & Hc & Hp & Hq).
      exists l', m'. repeat split; auto.
      * intros k' fact Hk'. apply Hkeep. unfold m1. rewrite facts_remember.
        destruct (string_dec k k'); [congruence | exact Hk'].
      * intros k' v' [Heq | Hin']; [| now apply (Hin k' v')].
        injection Heq as <- <-.
        rewrite (Hkeep k (Memory.mkFact v (clock k))); [discriminate |].
        unfold m1. rewrite facts_remember.
        now destruct (string_dec k k).
      * intros k' Hk'. destruct (Hnew k' Hk') as [H1 | H1].
        -- unfold m1 in H1. rewrite facts_remember in H1.
           destruct (string_dec k k') as [<- | Hne]; [right; now left | now left].
        -- right. now right.
Qed.

(** When every collected key already holds a fact the loop changes
    nothing. *)
Lemma import_facts_all_present (clock : string -> string)
    (collected : list (string * string)) (learning : LearningManager.t)
    (m : Memory.t) :
  LearningManager.memory learning = Some m ->
  (forall k v, In (k, v) collected -> Memory.memory m !! k <> None) ->
  import_facts learning clock collected = (learning, Py.Returned tt).
Proof.
  intros Hm. induction collected as [|[k v] rest IH]; intros Hall;
    cbn [import_facts]; [reflexivity |].
  unfold Learning.recall_fact, LearningManager.get_memory.
  rewrite Hm. cbn [Py.bind]. rewrite recall_facts.
  destruct (Memory.memory m !! k) as [fact|] eqn:Ek; cbn [fmap option_fmap option_map].
  - apply IH. intros k' v' Hin. apply (Hall k' v'). now right.
  - exfalso. apply (Hall k v); [now left | exact Ek].
Qed.

(** *** What is collected *)

Lemma dict_set_in (d : list (string * string)) (k v : string) (p : string * string) :
  In p (AIManager.dict_set d k v) -> p = (k, v) \/ In p d.
Proof.
  induction d as [|[k' v'] d IH]; cbn [AIManager.dict_set In].
  - intros [<- | []]. now left.
  - destruct (String.eqb k k'); cbn [In].
    + intros [<- | H]; [now left | right; now right].
    + intros [<- | H]; [right; now left |].
      destruct (IH H) as [-> | H']; [now left | right; now right].
Qed.

Lemma dict_set_here (d : list (string * string)) (k v : string) :
  In (k, v) (AIManager.dict_set d k v).
Proof.
  induction d as [|[k' v'] d IH]; cbn [AIManager.dict_set In]; [now left |].
  destruct (String.eqb k k'); cbn [In]; [now left | now right].
Qed.

Lemma dict_set_other (d : list (string * string)) (k v k' v' : string) :
  k' <> k -> In (k', v') d -> In (k', v') (AIManager.dict_set d k v).
Proof.
  intros Hne. induction d as [|[k0 v0] d IH]; cbn [AIManager.dict_set In];
    [intros [] |].
  destruct (String.eqb_spec k k0) as [-> | Hk]; cbn [In].
  - intros [Heq | H]; [injection Heq as <- <-; congruence | now right].
  - intros [Heq | H]; [now left | right; now apply IH].
Qed.

Lemma dict_set_keys (d : list (string * string)) (k v k' : string) :
  In k' (map fst (AIManager.dict_set d k v)) -> k' = k \/ In k' (map fst d).
Proof.
  rewrite !in_map_iff. intros ([k0 v0] & <- & Hin).
  destruct (dict_set_in d k v _ Hin) as [Heq | H].
  - injection Heq as -> ->. now left.
  - right. now exists (k0, v0).
Qed.

Lemma dict_set_nodup (d : list (string * string)) (k v : string) :
  List.NoDup (map fst d) -> List.NoDup (map fst (AIManager.dict_set d k v)).
Proof.
  induction d as [|[k' v'] d IH]; cbn [AIManager.dict_set map fst]; intros Hnd.
  - constructor; [intros [] | constructor].
  - inversion Hnd as [|? ? Hnotin Hnd']; subst.
    destruct (String.eqb_spec k k') as [-> | Hk]; cbn [map fst].
    + now constructor.
    + constructor; [| now apply IH].
      intros Hin. destruct (dict_set_keys d k v k' Hin) as [-> | H];
        [congruence | contradiction].
Qed.

Lemma getenv_in (env : environ) (k v : string) :
  getenv env k = Some v -> In (k, v) env.
Proof.
  induction env as [|[k' v'] env IH]; cbn [getenv]; [discriminate |].
  destruct (String.eqb_spec k k') as [-> | Hne].
  - intros [= ->]. now left.
  - intros H. right. now apply IH.
Qed.

Lemma fold_left_invariant {A B : Type} (f : A -> B -> A) (P : A -> Prop)
    (l : list B) :
  forall a : A,
  P a -> (forall a x, In x l -> P a -> P (f a x)) -> P (fold_left f l a).
Proof.
  induction l as [|x l IH]; intros a Ha Hstep; cbn [fold_left]; [exact Ha |].
  apply IH; [apply Hstep; [now left | exact Ha] |].
  intros a' x' Hin. apply Hstep. now right.
Qed.

(** Whatever is collected is a variable of the environment with a value
    that is not empty, and no name is collected twice. *)
Lemma collect_env_sound (keys : list string) (env : environ) :
  (forall k v, In (k, v) (collect_env keys env) -> In (k, v) env /\ v <> "")
  /\ List.NoDup (map fst (collect_env keys env)).
Proof.
  unfold collect_env. destruct keys as [|k0 keys].
  - split.
    + apply (fold_left_invariant _
               (fun acc => forall k v, In (k, v) acc -> In (k, v) env /\ v <> "")).
      * intros k v [].
      * intros acc [k' v'] Henv Hacc k v.
        destruct (String.prefix "PHENOM_" k' && negb (String.eqb v' "")) eqn:E;
          [| apply Hacc].
        intros Hin. destruct (dict_set_in acc k' v' _ Hin) as [Heq | H];
          [| now apply Hacc].
        injection Heq as -> ->. split; [exact Henv |].
        apply andb_true_iff in E as [_ E]. apply negb_true_iff in E.
        now apply String.eqb_neq.
    + apply (fold_left_invariant _ (fun acc => List.NoDup (map fst acc))).
      * constructor.
      * intros acc [k' v'] _ Hacc.
        destruct (String.prefix "PHENOM_" k' && negb (String.eqb v' ""));
          [now apply dict_set_nodup | exact Hacc].
  - split.
    + apply (fold_left_invariant _
               (fun acc => forall k v, In (k, v) acc -> In (k, v) env /\ v <> "")).
      * intros k v [].
      * intros acc k' _ Hacc k v.
        destruct (getenv env k') as [v'|] eqn:Eg; [| apply Hacc].
        destruct (String.eqb_spec v' "") as [-> | Hv]; [apply Hacc |].
        intros Hin. destruct (dict_set_in acc k' v' _ Hin) as [Heq | H];
          [| now apply Hacc].
        injection Heq as -> ->. split; [now apply getenv_in | exact Hv].
    + apply (fold_left_invariant _ (fun acc => List.NoDup (map fst acc))).
      * constructor.
      * intros acc k' _ Hacc.
        destruct (getenv env k') as [v'|]; [| exact Hacc].
        destruct (String.eqb v' ""); [exact Hacc | now apply dict_set_nodup].
Qed.

(** With an explicit key list, every listed variable that is set to a
    value that is not empty is collected with that value. *)
Lemma collect_env_complete (keys : list string) (env : environ) (k v : string) :
  In k keys -> getenv env k = Some v -> v <> "" ->
  In (k, v) (collect_env keys env).
Proof.
  intros Hin Hg Hv. unfold collect_env.
  destruct keys as [|k0 keys]; [destruct Hin |].
  destruct (in_split _ _ Hin) as (l1 & l2 & ->).
  rewrite fold_left_app. cbn [fold_left]. rewrite Hg.
  apply String.eqb_neq in Hv. rewrite Hv.
  apply fold_left_invariant; [apply dict_set_here |].
  intros acc k' _ Hacc.
  destruct (getenv env k') as [v'|] eqn:Eg; [| exact Hacc].
  destruct (String.eqb v' ""); [exact Hacc |].
  destruct (string_dec k' k) as [-> | Hne].
  - rewrite Hg in Eg. injection Eg as <-. apply dict_set_here.
  - apply dict_set_other; [congruence | exact Hacc].
Qed.

(** A collected variable whose key holds no fact is imported with its
    value and the time of the clock. *)
Lemma import_facts_value (clock : string -> string)
    (collected : list (string * string)) :
  List.NoDup (map fst collected) ->
  forall (learning : LearningManager.t) (m : Memory.t) (k v : string),
  LearningManager.memory learning = Some m ->
  In (k, v) collected ->
  Memory.memory m !! k = None ->
  exists m' : Memory.t,
    LearningManager.memory (fst (import_facts learning clock collected)) = Some m'
    /\ Memory.memory m' !! k = Some (Memory.mkFact v (clock k)).
Proof.
  induction collected as [|[k0 v0] rest IH]; intros Hnd learning m k v Hm Hin Hk;
    [destruct Hin |].
  cbn [map fst] in Hnd. inversion Hnd as [|? ? Hnotin Hnd']; subst.
  cbn [import_facts]. unfold Learning.recall_fact, LearningManager.get_memory.
  rewrite Hm. cbn [Py.bind]. rewrite recall_facts.
  destruct Hin as [Heq | Hin].
  - injection Heq as -> ->. rewrite Hk. cbn [fmap option_fmap option_map].
    unfold Learning.remember_fact, LearningManager.get_memory.
    rewrite Hm. cbn [Py.bind].
    set (m1 := MemoryStore.remember m (clock k) k v).
    destruct (import_facts_spec clock rest
                (LearningManager.with_memory learning m1) m1 eq_refl)
      as (l' & m' & Hr & Hm' & _ & _ & Hkeep & _).
    rewrite Hr. cbn [fst]. exists m'. split; [exact Hm' |].
    apply Hkeep. unfold m1. rewrite facts_remember.
    now destruct (string_dec k k).
  - assert (Hne : k0 <> k).
    { intros ->. apply Hnotin. apply in_map_iff. now exists (k, v). }
    destruct (Memory.memory m !! k0) as [fact|] eqn:Ek0;
      cbn [fmap option_fmap option_map].
    + now apply (IH Hnd' learning m k v).
    + unfold Learning.remember_fact, LearningManager.get_memory.
      rewrite Hm. cbn [Py.bind].
      apply (IH Hnd'
               (LearningManager.with_memory learning
                  (MemoryStore.remember m (clock k0) k0 v0))
               (MemoryStore.remember m (clock k0) k0 v0) k v eq_refl Hin).
      rewrite facts_remember. now destruct (string_dec k0 k).
Qed.

(** *** The import *)

(** What the import does on a manager with a memory: the loop over the
    collected variables, or nothing. *)
Lemma import_personal_envs_unfold
    (personal_injection : option AIManager.PersonalInjection) (env : environ)
    (clock : string -> string) (learning : LearningManager.t) :
  _import_personal_envs personal_injection env clock learning
  = (learning, Py.Returned tt)
  \/ _import_personal_envs personal_injection env clock learning
     = import_facts learning clock
         (collect_env
            (default [] (AIManager.pi_env_keys
                           (default (AIManager.mkPersonalInjection None None None)
                              personal_injection)))
            env).
Proof.
  unfold _import_personal_envs.
  destruct (negb _); [now left |].
  destruct (collect_env _ env) eqn:E; [now left | now right].
Qed.

(** X13. On a manager with a memory the startup import returns normally
    and never overwrites: every fact present before is present after with
    the same value and time stamp; a key that holds a fact afterwards either
    held one before or is a variable of the environment with a value that is
    not empty; the log, the preferences and the pattern counts are
    untouched. *)
Theorem import_personal_envs_never_overwrites
    (personal_injection : option AIManager.PersonalInjection) (env : environ)
    (clock : string -> string) (learning : LearningManager.t) (m : Memory.t) :
  LearningManager.memory learning = Some m ->
  snd (_import_personal_envs personal_injection env clock learning)
  = Py.Returned tt
  /\ exists m' : Memory.t,
       LearningManager.memory
         (fst (_import_personal_envs personal_injection env clock learning))
       = Some m'
       /\ (forall k fact, Memory.memory m !! k = Some fact ->
             Memory.memory m' !! k = Some fact)
       /\ (forall k v, MemoryStore.recall m k = Some v ->
             MemoryStore.recall m' k = Some v)
       /\ (forall k, MemoryStore.recall m' k <> None ->
             MemoryStore.recall m k <> None
             \/ exists v, In (k, v) env /\ v <> "")
       /\ Memory.conversations m' = Memory.conversations m
       /\ Memory.user_preferences m' = Memory.user_preferences m
       /\ Memory.learned_patterns m' = Memory.learned_patterns m.
Proof.
  intros Hm.
  destruct (import_personal_envs_unfold personal_injection env clock learning)
    as [-> | ->].
  - cbn [fst snd]. split; [reflexivity |]. exists m. repeat split; auto.
  - set (collected := collect_env _ env).
    destruct (import_facts_spec clock collected learning m Hm)
      as (l' & m' & Hr & Hm' & _ & _ & Hkeep & _ & Hnew & Hc & Hp & Hq).
    rewrite Hr. cbn [fst snd]. split; [reflexivity |].
    exists m'. split; [exact Hm' |]. split; [exact Hkeep |].
    split; [| split; [| now repeat split]].
    + intros k v. rewrite !recall_facts.
      destruct (Memory.memory m !! k) as [fact|] eqn:E; [| discriminate].
      now rewrite (Hkeep k fact E).
    + intros k. rewrite !recall_facts. intros Hk.
      destruct (Hnew k) as [H | H].
      * intros H. now rewrite H in Hk.
      * left. intros H'. apply H. now destruct (Memory.memory m !! k).
      * right. apply in_map_iff in H as ([k' v] & <- & Hin).
        exists v. cbn [fst]. unfold collected in Hin.
        exact (proj1 (collect_env_sound _ env) k' v Hin).
Qed.

Lemma import_personal_envs_never_overwrites_witness :
  LearningManager.memory
    (LearningManager.mk true (Py.Float (Py.float_dec 1 10)) (Some store_with_fact))
  = Some store_with_fact
  /\ snd (_import_personal_envs personal_on
            [("PHENOM_AGE", "36"); ("CITY", "Oslo")] stamp
            (LearningManager.mk true (Py.Float (Py.float_dec 1 10))
               (Some store_with_fact)))
     = Py.Returned tt.
Proof.
  split; [reflexivity |].
  exact (proj1 (import_personal_envs_never_overwrites personal_on
                  [("PHENOM_AGE", "36"); ("CITY", "Oslo")] stamp
                  (LearningManager.mk true (Py.Float (Py.float_dec 1 10))
                     (Some store_with_fact))
                  store_with_fact eq_refl)).
Defined.

(** X14. Importing twice is importing once: a second import from the
    same configuration and environment, at whatever time, leaves the manager
    exactly as the first one left it. *)
Theorem import_personal_envs_twice
    (personal_injection : option AIManager.PersonalInjection) (env : environ)
    (clock clock' : string -> string) (learning : LearningManager.t)
    (m : Memory.t) :
  LearningManager.memory learning = Some m ->
  _import_personal_envs personal_injection env clock'
    (fst (_import_personal_envs personal_injection env clock learning))
  = (fst (_import_personal_envs personal_injection env clock learning),
     Py.Returned tt).
Proof.
  intros Hm.
  destruct (import_personal_envs_unfold personal_injection env clock learning)
    as [H1 | H1]; rewrite H1.
  - cbn [fst].
    destruct (import_personal_envs_unfold personal_injection env clock' learning)
      as [H2 | H2]; [exact H2 |].
    (* the first import found nothing to do, so does the second *)
    unfold _import_personal_envs in *.
    destruct (negb _); [reflexivity |].
    destruct (collect_env _ env) as [|p collected] eqn:E; [reflexivity |].
    destruct (import_facts_spec clock (p :: collected) learning m Hm)
      as (l' & m' & Hr & Hm' & _ & _ & _ & Hin & _).
    rewrite Hr in H1. injection H1 as ->.
    apply (import_facts_all_present clock' (p :: collected) learning m' Hm' Hin).
  - set (collected := collect_env _ env) in *.
    destruct (import_facts_spec clock collected learning m Hm)
      as (l' & m' & Hr & Hm' & _ & _ & _ & Hin & _).
    rewrite Hr. cbn [fst].
    destruct (import_personal_envs_unfold personal_injection env clock' l')
      as [H2 | H2]; [exact H2 |].
    rewrite H2. fold collected.
    apply (import_facts_all_present clock' collected l' m' Hm' Hin).
Qed.

Lemma import_personal_envs_twice_witness :
  LearningManager.memory learner = Some (MemoryExamples.store_with_cap 1000)
  /\ _import_personal_envs personal_on personal_env stamp
       (fst (_import_personal_envs personal_on personal_env stamp learner))
     = (fst (_import_personal_envs personal_on personal_env stamp learner),
        Py.Returned tt).
Proof.
  split; [reflexivity |].
  exact (import_personal_envs_twice personal_on personal_env stamp stamp learner
           (MemoryExamples.store_with_cap 1000) eq_refl).
Defined.

(** X15. With personal injection on and an explicit key list, a listed
    variable that is set to a value that is not empty and whose key holds no
    fact yet is recalled with that value after the import. *)
Theorem import_personal_envs_imports_listed_value
    (keys : list string) (directive : option string) (env : environ)
    (clock : string -> string) (learning : LearningManager.t) (m : Memory.t)
    (k v : string) :
  LearningManager.memory learning = Some m ->
  In k keys ->
  getenv env k = Some v ->
  v <> "" ->
  MemoryStore.recall m k = None ->
  exists m' : Memory.t,
    LearningManager.memory
      (fst (_import_personal_envs
              (Some (AIManager.mkPersonalInjection (Some true) (Some keys) directive))
              env clock learning))
    = Some m'
    /\ MemoryStore.recall m' k = Some v
    /\ Memory.memory m' !! k = Some (Memory.mkFact v (clock k)).
Proof.
  intros Hm Hin Hg Hv Hk.
  pose proof (collect_env_complete keys env k v Hin Hg Hv) as Hc.
  unfold _import_personal_envs.
  cbn [default from_option id AIManager.pi_enabled AIManager.pi_env_keys negb].
  destruct (collect_env keys env) as [|p collected] eqn:E; [destruct Hc |].
  rewrite <- E in *.
  destruct (import_facts_value clock (collect_env keys env)
              (proj2 (collect_env_sound keys env)) learning m k v Hm Hc)
    as (m' & Hm' & Hfact).
  { rewrite recall_facts in Hk. now destruct (Memory.memory m !! k). }
  exists m'. split; [exact Hm' |]. split; [| exact Hfact].
  now rewrite recall_facts, Hfact.
Qed.

Lemma import_personal_envs_imports_listed_value_witness :
  LearningManager.memory learner = Some (MemoryExamples.store_with_cap 1000)
  /\ In "CITY" ["PHENOM_AGE"; "CITY"]
  /\ getenv personal_env "CITY" = Some "Oslo"
  /\ "Oslo" <> ""
  /\ MemoryStore.recall (MemoryExamples.store_with_cap 1000) "CITY" = None
  /\ exists m' : Memory.t,
       LearningManager.memory
         (fst (_import_personal_envs personal_on personal_env stamp learner))
       = Some m'
       /\ MemoryStore.recall m' "CITY" = Some "Oslo".
Proof.
  assert (H1 : LearningManager.memory learner
               = Some (MemoryExamples.store_with_cap 1000)) by reflexivity.
  assert (H2 : In "CITY" ["PHENOM_AGE"; "CITY"]) by (right; now left).
  assert (H3 : getenv personal_env "CITY" = Some "Oslo") by reflexivity.
  assert (H4 : "Oslo" <> "") by discriminate.
  assert (H5 : MemoryStore.recall (MemoryExamples.store_with_cap 1000) "CITY" = None)
    by reflexivity.
  split; [exact H1 | split; [exact H2 | split; [exact H3 |
    split; [exact H4 | split; [exact H5 |]]]]].
  destruct (import_personal_envs_imports_listed_value ["PHENOM_AGE"; "CITY"] None
              personal_env stamp learner _ "CITY" "Oslo" H1 H2 H3 H4 H5)
    as (m' & Hm' & Hr & _).
  exists m'. split; [exact Hm' | exact Hr].
Defined.

End PhenomFacts.

(** ** More on the orchestrator *)

Module AIManagerMoreFacts.
Import AIManager AIManagerExamples MoreExamples AIManagerFacts.

Ltac split_response r :=
  let s := fresh "s" in
  let E := fresh "E" in
  destruct r as [s|]; [destruct (String.eqb s "") eqn:E |].

(** X16. In hybrid mode [generate] answers with the first answer on hand
    in the order of preference: cloud then local when [force_cloud] is set
    or the prompt is complex, local then cloud otherwise; a backend has an
    answer on hand when its probe succeeds and its response is neither absent
    nor empty; with no answer on hand the fixed string is returned. *)
Theorem hybrid_generate_answer
    (self : t) (env : environ) (prompt : string) (system : option string)
    (force_cloud : bool) :
  mode self = "hybrid" ->
  fst (generate self env prompt system force_cloud)
  = Py.Returned
      (let cloud :=
         usable (CloudLLM.is_available (cloud_llm self))
                (CloudLLM.generate (cloud_llm self) prompt
                   (resolve_system self env system)) in
       let local :=
         usable (LocalLLM.is_available (local_llm self))
                (LocalLLM.generate (local_llm self) prompt
                   (resolve_system self env system)) in
       if force_cloud || _should_use_cloud self prompt
       then prefer cloud local else prefer local cloud).
Proof.
  intros Hmode. unfold generate, usable. hybrid_mode Hmode.
  destruct (force_cloud || _should_use_cloud self prompt);
    destruct (CloudLLM.is_available (cloud_llm self));
    destruct (LocalLLM.is_available (local_llm self));
    split_response (CloudLLM.generate (cloud_llm self) prompt
                      (resolve_system self env system));
    split_response (LocalLLM.generate (local_llm self) prompt
                      (resolve_system self env system));
    cbn; rewrite ?E, ?E0; reflexivity.
Qed.

Lemma hybrid_generate_answer_witness :
  mode hybrid_manager = "hybrid"
  /\ fst (generate hybrid_manager [] "hi" None true) = Py.Returned "cloud: hi"
  /\ fst (generate hybrid_manager [] "hi" None false) = Py.Returned "local: hi".
Proof.
  assert (Hm : mode hybrid_manager = "hybrid") by reflexivity.
  split; [exact Hm |]. split.
  - exact (hybrid_generate_answer hybrid_manager [] "hi" None true Hm).
  - exact (hybrid_generate_answer hybrid_manager [] "hi" None false Hm).
Defined.

(** X17. [chat] in hybrid mode follows the same order of preference,
    scored on the content of the last turn sent (the empty string when there
    is none), and sends both backends the same turn sequence. *)
Theorem hybrid_chat_answer
    (self : t) (env : environ) (messages : list Message) (force_cloud : bool) :
  mode self = "hybrid" ->
  fst (chat self env messages force_cloud)
  = Py.Returned
      (let sent := inject_system self env messages in
       let cloud :=
         usable (CloudLLM.is_available (cloud_llm self))
                (CloudLLM.chat (cloud_llm self) sent) in
       let local :=
         usable (LocalLLM.is_available (local_llm self))
                (LocalLLM.chat (local_llm self) sent) in
       if force_cloud || _should_use_cloud self (last_message sent)
       then prefer cloud local else prefer local cloud).
Proof.
  intros Hmode. unfold chat, usable. hybrid_mode Hmode.
  fold (last_message (inject_system self env messages)).
  destruct (force_cloud
            || _should_use_cloud self (last_message (inject_system self env messages)));
    destruct (CloudLLM.is_available (cloud_llm self));
    destruct (LocalLLM.is_available (local_llm self));
    split_response (CloudLLM.chat (cloud_llm self) (inject_system self env messages));
    split_response (LocalLLM.chat (local_llm self) (inject_system self env messages));
    cbn; rewrite ?E, ?E0; reflexivity.
Qed.

Lemma hybrid_chat_answer_witness :
  mode hybrid_manager = "hybrid"
  /\ fst (chat hybrid_manager [] [mkMessage "user" "hi"] false)
     = Py.Returned "local chat".
Proof.
  assert (Hm : mode hybrid_manager = "hybrid") by reflexivity.
  split; [exact Hm |].
  exact (hybrid_chat_answer hybrid_manager [] [mkMessage "user" "hi"] false Hm).
Defined.



Lemma or_else_nonempty (r : option string) (d : string) :
  d <> "" -> Py.or_else r d <> "".
Proof.
  intros Hd. destruct r as [s|]; cbn [Py.or_else]; [| exact Hd].
  destruct (String.eqb_spec s ""); [exact Hd | assumption].
Qed.

(** X19. Whatever the mode, the backends and the arguments, [generate]
    and [chat] return a string that is not empty: a backend's answer is
    passed on only when it is not empty, and every fixed string is not. *)
Theorem generate_and_chat_never_return_empty
    (self : t) (env : environ) (prompt : string) (system : option string)
    (messages : list Message) (force_cloud : bool) :
  (exists s, fst (generate self env prompt system force_cloud) = Py.Returned s
             /\ s <> "")
  /\ (exists s, fst (chat self env messages force_cloud) = Py.Returned s
                /\ s <> "").
Proof.
  split.
  - unfold generate.
    destruct (String.eqb (mode self) "local");
      [eexists; split; [reflexivity | now apply or_else_nonempty] |].
    destruct (String.eqb (mode self) "cloud");
      [eexists; split; [reflexivity | now apply or_else_nonempty] |].
    destruct (String.eqb (mode self) "hybrid");
      [| eexists; split; [reflexivity | discriminate]].
    destruct (force_cloud || _should_use_cloud self prompt);
      destruct (CloudLLM.is_available (cloud_llm self));
      destruct (LocalLLM.is_available (local_llm self));
      split_response (CloudLLM.generate (cloud_llm self) prompt
                        (resolve_system self env system));
      split_response (LocalLLM.generate (local_llm self) prompt
                        (resolve_system self env system));
      cbn; rewrite ?E, ?E0; cbn;
      (eexists; split; [reflexivity |]);
      first [discriminate | now apply String.eqb_neq].
  - unfold chat.
    destruct (String.eqb (mode self) "local");
      [eexists; split; [reflexivity | now apply or_else_nonempty] |].
    destruct (String.eqb (mode self) "cloud");
      [eexists; split; [reflexivity | now apply or_else_nonempty] |].
    destruct (String.eqb (mode self) "hybrid");
      [| eexists; split; [reflexivity | discriminate]].
    destruct (force_cloud || _should_use_cloud self _);
      destruct (CloudLLM.is_available (cloud_llm self));
      destruct (LocalLLM.is_available (local_llm self));
      split_response (CloudLLM.chat (cloud_llm self) (inject_system self env messages));
      split_response (LocalLLM.chat (local_llm self) (inject_system self env messages));
      cbn; rewrite ?E, ?E0; cbn;
      (eexists; split; [reflexivity |]);
      first [discriminate | now apply String.eqb_neq].
Qed.

(** X20. The environment reaches a request only through personal
    injection. A system prompt passed by the caller is used as it is, so
    [generate] then gives the same result and makes the same backend calls
    under any environment; with personal injection off the same holds for
    every [generate] and every [chat]; and [chat] sends a sequence that
    already has a system turn unchanged. *)
Theorem environment_reaches_requests_only_through_injection
    (self : t) (env env' : environ) (prompt : string) (system : option string)
    (messages : list Message) (force_cloud : bool) :
  (forall s, generate self env prompt (Some s) force_cloud
             = generate self env' prompt (Some s) force_cloud)
  /\ (personal_injection_enabled self = false ->
      generate self env prompt system force_cloud
      = generate self env' prompt system force_cloud
      /\ chat self env messages force_cloud = chat self env' messages force_cloud
      /\ inject_system self env messages = messages)
  /\ (existsb (fun msg => String.eqb (role msg) "system") messages = true ->
      inject_system self env messages = messages
      /\ chat self env messages force_cloud = chat self env' messages force_cloud).
Proof.
  split; [reflexivity |]. split.
  - intros Hoff.
    assert (Hs : forall e, resolve_system self e system = resolve_system self env' system).
    { intros e. unfold resolve_system, _build_system_prompt. rewrite Hoff.
      now destruct system. }
    assert (Hi : forall e, inject_system self e messages = messages).
    { intros e. unfold inject_system. now rewrite Hoff. }
    split; [| split; [| apply Hi]].
    + unfold generate. now rewrite (Hs env).
    + unfold chat. now rewrite (Hi env), (Hi env').
  - intros Hsys.
    assert (Hi : forall e, inject_system self e messages = messages).
    { intros e. unfold inject_system. rewrite Hsys.
      now destruct (personal_injection_enabled self). }
    split; [apply Hi |]. unfold chat. now rewrite (Hi env), (Hi env').
Qed.

(** *** The system prompt *)

(** [_build_system_prompt] collects as the startup import does. *)
Lemma build_system_prompt_collect (self : t) (env : environ) :
  _build_system_prompt self env
  = if negb (personal_injection_enabled self) then None
    else match Phenom.collect_env (personal_env_keys self) env with
         | [] => None
         | collected =>
             Some (Py.join (String (ascii_of_N 10) "")
                     (strip (personal_directive self) :: ""
                      :: map (fun '(k, v) => (k ++ ": " ++ v)%string) collected))
         end.
Proof.
  unfold _build_system_prompt, Phenom.collect_env.
  destruct (negb _); [reflexivity |].
  destruct (personal_env_keys self); cbv zeta;
    destruct (fold_left _ _ _); reflexivity.
Qed.

Lemma join_cons_cons (sep h h' : string) (t : list string) :
  Py.join sep (h :: h' :: t) = (h ++ sep ++ Py.join sep (h' :: t))%string.
Proof. reflexivity. Qed.

Lemma contains_join (sep x : string) (l : list string) :
  In x l -> Py.contains x (Py.join sep l) = true.
Proof.
  induction l as [|h t IH]; [intros [] |].
  destruct t as [|h' t].
  - intros [-> | []]. apply StrFacts.contains_refl.
  - rewrite join_cons_cons. intros [-> | Hin].
    + apply StrFacts.contains_append_l, StrFacts.contains_refl.
    + apply StrFacts.contains_append_r, StrFacts.contains_append_r.
      now apply IH.
Qed.

Lemma prefix_join (sep h : string) (t : list string) :
  String.prefix h (Py.join sep (h :: t)) = true.
Proof.
  destruct t as [|h' t]; [apply StrFacts.prefix_refl |].
  rewrite join_cons_cons. apply StrFacts.prefix_append, StrFacts.prefix_refl.
Qed.

(** X21. With personal injection on and an explicit key list, every
    listed variable that is set to a value that is not empty appears in the
    system prompt as "KEY: value"; the prompt opens with the directive,
    stripped of surrounding white space. *)
Theorem system_prompt_lists_selected_variables
    (self : t) (env : environ) (k v : string) :
  personal_injection_enabled self = true ->
  In k (personal_env_keys self) ->
  getenv env k = Some v ->
  v <> "" ->
  exists p : string,
    _build_system_prompt self env = Some p
    /\ String.prefix (strip (personal_directive self)) p = true
    /\ Py.contains (k ++ ": " ++ v) p = true.
Proof.
  intros Hon Hin Hg Hv. rewrite build_system_prompt_collect, Hon. cbn [negb].
  pose proof (PhenomFacts.collect_env_complete _ env k v Hin Hg Hv) as Hc.
  destruct (Phenom.collect_env (personal_env_keys self) env) as [|p0 collected] eqn:E;
    [destruct Hc |].
  eexists. split; [reflexivity |]. split; [apply prefix_join |].
  apply contains_join. right. right.
  apply in_map_iff. now exists (k, v).
Qed.

Lemma system_prompt_lists_selected_variables_witness :
  personal_injection_enabled personal_manager = true
  /\ In "PHENOM_AGE" (personal_env_keys personal_manager)
  /\ getenv [("PHENOM_AGE", "35")] "PHENOM_AGE" = Some "35"
  /\ "35" <> ""
  /\ exists p : string,
       _build_system_prompt personal_manager [("PHENOM_AGE", "35")] = Some p
       /\ Py.contains "PHENOM_AGE: 35" p = true.
Proof.
  assert (H1 : personal_injection_enabled personal_manager = true) by reflexivity.
  assert (H2 : In "PHENOM_AGE" (personal_env_keys personal_manager)) by now left.
  assert (H3 : getenv [("PHENOM_AGE", "35")] "PHENOM_AGE" = Some "35") by reflexivity.
  assert (H4 : "35" <> "") by discriminate.
  split; [exact H1 | split; [exact H2 | split; [exact H3 | split; [exact H4 |]]]].
  destruct (system_prompt_lists_selected_variables personal_manager
              [("PHENOM_AGE", "35")] "PHENOM_AGE" "35" H1 H2 H3 H4)
    as (p & Hp & _ & Hc).
  exists p. split; [exact Hp | exact Hc].
Defined.

Lemma fold_left_ext_in {A B : Type} (f g : A -> B -> A) (l : list B) :
  (forall a x, In x l -> f a x = g a x) ->
  forall a, fold_left f l a = fold_left g l a.
Proof.
  induction l as [|x l IH]; intros H a; cbn [fold_left]; [reflexivity |].
  rewrite (H a x (or_introl eq_refl)). apply IH.
  intros a' x' Hin. apply H. now right.
Qed.

(** X22. With an explicit key list the system prompt depends on the
    listed variables only: two environments that agree on them give the same
    prompt, whatever else they hold. With personal injection off there is no
    prompt. *)
Theorem system_prompt_reads_listed_variables_only
    (self : t) (env env' : environ) :
  personal_env_keys self <> [] ->
  (forall k, In k (personal_env_keys self) -> getenv env k = getenv env' k) ->
  _build_system_prompt self env = _build_system_prompt self env'
  /\ (personal_injection_enabled self = false ->
      _build_system_prompt self env = None).
Proof.
  intros Hkeys Hagree. split.
  - rewrite !build_system_prompt_collect.
    destruct (negb _); [reflexivity |].
    assert (Hc : Phenom.collect_env (personal_env_keys self) env
                 = Phenom.collect_env (personal_env_keys self) env').
    { unfold Phenom.collect_env.
      destruct (personal_env_keys self) as [|k0 keys] eqn:E; [congruence |].
      apply fold_left_ext_in. intros acc k Hin. now rewrite (Hagree k Hin). }
    now rewrite Hc.
  - intros Hoff. unfold _build_system_prompt. now rewrite Hoff.
Qed.

Lemma system_prompt_reads_listed_variables_only_witness :
  personal_env_keys personal_manager <> []
  /\ _build_system_prompt personal_manager [("PHENOM_AGE", "35")]
     = _build_system_prompt personal_manager
         [("HOME", "/root"); ("PHENOM_AGE", "35"); ("PHENOM_CITY", "Oslo")].
Proof.
  assert (H1 : personal_env_keys personal_manager <> []) by discriminate.
  split; [exact H1 |].
  refine (proj1 (system_prompt_reads_listed_variables_only personal_manager
                   [("PHENOM_AGE", "35")]
                   [("HOME", "/root"); ("PHENOM_AGE", "35"); ("PHENOM_CITY", "Oslo")]
                   H1 _)).
  intros k [<- | []]. reflexivity.
Defined.

(** *** The complexity score *)

Lemma complexity_score_cases (prompt : string) :
  complexity_score prompt = 0 \/ complexity_score prompt = 1
  \/ complexity_score prompt = 2 \/ complexity_score prompt = 3
  \/ complexity_score prompt = 4 \/ complexity_score prompt = 5
  \/ complexity_score prompt = 6 \/ complexity_score prompt = 7
  \/ complexity_score prompt = 8.
Proof. pose proof (complexity_score_range prompt). lia. Qed.

(** X23. The normalized score lies between 0.0 and 1.0 for every prompt,
    and with the default threshold 0.5 a prompt is treated as complex
    exactly when its integer score is at least three: three phrases matched,
    or two phrases and more than 500 characters. *)
Theorem default_threshold_means_three_points (self : t) (prompt : string) :
  Py.fge (normalized_score prompt) (Py.float_lit 0) = true
  /\ Py.fge (Py.float_lit 1) (normalized_score prompt) = true
  /\ (decision_threshold self = Py.float_dec 1 2 ->
      (_should_use_cloud self prompt = true <-> 3 <= complexity_score prompt)).
Proof.
  unfold _should_use_cloud, normalized_score.
  destruct (complexity_score_cases prompt)
    as [H | [H | [H | [H | [H | [H | [H | [H | H]]]]]]]]; rewrite H;
    (split; [reflexivity | split; [reflexivity |]]);
    intros ->; split; intros H'; first [lia | reflexivity | discriminate H'].
Qed.




End AIManagerMoreFacts.

(** ** Retrieval-augmented generation *)

Module RAGMoreFacts.
Import RAGManager RAG RAGExamples MoreExamples.

(** X25. Retrieval is best effort: with the manager or the store
    disabled, with a search that raises and with a search that finds
    nothing, [generate_with_context] is plain [generate] on the query, with
    the same [force_cloud]; no failure of the retrieval reaches the
    caller. *)
Theorem generate_with_context_degrades (self : t) (vector_db : VectorDB)
    (ai : AIManager.t) (env : environ) (query : string) (n_context : Z)
    (force_cloud : bool) :
  enabled self = false \/ vdb_enabled vector_db = false
  \/ vdb_search vector_db query n_context = None
  \/ vdb_search vector_db query n_context = Some [] ->
  generate_with_context self vector_db ai env query n_context force_cloud
  = AIManager.generate ai env query None force_cloud.
Proof.
  unfold generate_with_context.
  intros [H | [H | [H | H]]]; rewrite H; cbn [negb orb];
    try reflexivity.
  - now rewrite orb_true_r.
  - now destruct (negb (enabled self) || negb (vdb_enabled vector_db)).
  - now destruct (negb (enabled self) || negb (vdb_enabled vector_db)).
Qed.

Lemma generate_with_context_degrades_witness :
  (enabled (__init__ true) = false \/ vdb_enabled store_down = false
   \/ vdb_search store_down "capital of Norway" 3 = None
   \/ vdb_search store_down "capital of Norway" 3 = Some [])
  /\ generate_with_context (__init__ true) store_down
       AIManagerExamples.hybrid_manager [] "capital of Norway" 3 false
     = (Py.Returned "local: capital of Norway",
        [AIManager.LocalIsAvailable;
         AIManager.LocalGenerate "capital of Norway" None]).
Proof.
  assert (H : enabled (__init__ true) = false \/ vdb_enabled store_down = false
              \/ vdb_search store_down "capital of Norway" 3 = None
              \/ vdb_search store_down "capital of Norway" 3 = Some [])
    by (right; right; left; reflexivity).
  split; [exact H |].
  exact (generate_with_context_degrades (__init__ true) store_down
           AIManagerExamples.hybrid_manager [] "capital of Norway" 3 false H).
Defined.

(** *** The score of an augmented prompt *)

Lemma filter_length_mono {A : Type} (f g : A -> bool) (l : list A) :
  (forall x, f x = true -> g x = true) ->
  (length (List.filter f l) <= length (List.filter g l))%nat.
Proof.
  intros H. induction l as [|x l IH]; cbn [List.filter]; [lia |].
  destruct (f x) eqn:Ef.
  - rewrite (H x Ef). cbn [length]. lia.
  - destruct (g x); cbn [length]; lia.
Qed.

(** A prompt that contains another, once lower-cased, matches at least
    the phrases the other matches. *)
Lemma keyword_matches_mono (inner outer : string) :
  (forall keyword, Py.contains keyword (Py.lower inner) = true ->
                   Py.contains keyword (Py.lower outer) = true) ->
  AIManager.keyword_matches inner <= AIManager.keyword_matches outer.
Proof.
  intros H. unfold AIManager.keyword_matches.
  apply inj_le, filter_length_mono. exact H.
Qed.

Lemma rag_prompt_contains_query (query context keyword : string) :
  Py.contains keyword (Py.lower query) = true ->
  Py.contains keyword (Py.lower (_create_rag_prompt query context)) = true.
Proof.
  intros H. unfold _create_rag_prompt. rewrite !StrFacts.lower_append.
  do 9 apply StrFacts.contains_append_r.
  now apply StrFacts.contains_append_l.
Qed.

Lemma rag_prompt_contains_context (query context keyword : string) :
  Py.contains keyword (Py.lower context) = true ->
  Py.contains keyword (Py.lower (_create_rag_prompt query context)) = true.
Proof.
  intros H. unfold _create_rag_prompt. rewrite !StrFacts.lower_append.
  do 5 apply StrFacts.contains_append_r.
  now apply StrFacts.contains_append_l.
Qed.

(** X26. Under retrieval the orchestrator scores the augmented prompt,
    not the query, and augmenting never lowers the integer score: the
    augmented prompt matches every phrase the query matches and every phrase
    the context matches, and it is longer than both together, by the 162
    characters of the template. *)
Theorem augmented_prompt_scores_at_least_the_query (query context : string) :
  AIManager.complexity_score query
  <= AIManager.complexity_score (_create_rag_prompt query context)
  /\ AIManager.keyword_matches query
     <= AIManager.keyword_matches (_create_rag_prompt query context)
  /\ AIManager.keyword_matches context
     <= AIManager.keyword_matches (_create_rag_prompt query context)
  /\ Py.len (_create_rag_prompt query context)
     = Py.len query + Py.len context + 162
  /\ (forall self vector_db ai env n_context force_cloud doc docs,
        enabled self = true ->
        vdb_enabled vector_db = true ->
        vdb_search vector_db query n_context = Some (doc :: docs) ->
        context = _build_context self (doc :: docs) ->
        generate_with_context self vector_db ai env query n_context force_cloud
        = AIManager.generate ai env (_create_rag_prompt query context) None
            force_cloud).
Proof.
  pose proof (keyword_matches_mono query (_create_rag_prompt query context)
                (rag_prompt_contains_query query context)) as Hq.
  pose proof (keyword_matches_mono context (_create_rag_prompt query context)
                (rag_prompt_contains_context query context)) as Hc.
  assert (Hlen : Py.len (_create_rag_prompt query context)
                 = Py.len query + Py.len context + 162).
  { unfold _create_rag_prompt. rewrite !RAGFacts.len_append.
    change (Py.len rag_prompt_head) with 130.
    change (Py.len newline) with 1. change (Py.len "Context:") with 8.
    change (Py.len "Question: ") with 10. change (Py.len "Answer:") with 7.
    lia. }
  split; [| split; [exact Hq | split; [exact Hc | split; [exact Hlen |]]]].
  - unfold AIManager.complexity_score.
    pose proof (RAGFacts.len_nonneg context).
    destruct (Py.len query >? 500) eqn:E1;
      destruct (Py.len (_create_rag_prompt query context) >? 500) eqn:E2; lia.
  - intros self vector_db ai env n fc doc docs He Hv Hs ->.
    unfold generate_with_context. now rewrite He, Hv, Hs.
Qed.

Lemma augmented_prompt_scores_at_least_the_query_witness :
  AIManager.complexity_score "weather"
  <= AIManager.complexity_score
       (_create_rag_prompt "weather" "a comprehensive research paper").
Proof.
  exact (proj1 (augmented_prompt_scores_at_least_the_query
                  "weather" "a comprehensive research paper")).
Defined.

(** *** Chat with context *)

Lemma last_user_message_none (messages : list Message) :
  (forall msg, In msg messages -> role msg <> "user") ->
  last_user_message messages = None.
Proof.
  induction messages as [|m rest IH]; intros H; cbn [last_user_message];
    [reflexivity |].
  rewrite IH by (intros x Hx; apply H; now right).
  destruct (String.eqb_spec (role m) "user") as [Hu | _]; [| reflexivity].
  exfalso. now apply (H m (or_introl eq_refl)).
Qed.

(** The query is the content of the last turn whose role is user. *)
Lemma last_user_message_found (before after : list Message) (m : Message) :
  role m = "user" ->
  (forall msg, In msg after -> role msg <> "user") ->
  last_user_message (before ++ m :: after) = Some (content m).
Proof.
  intros Hu Hafter. induction before as [|b before IH].
  - cbn [app last_user_message]. rewrite (last_user_message_none after Hafter).
    now rewrite Hu.
  - cbn [app last_user_message]. change (before ++ m :: after)%list
      with (before ++ m :: after)%list in IH. now rewrite IH.
Qed.

(** X27. When retrieval finds documents, [chat_with_context] searches
    with the content of the last user turn and hands [chat] one system turn
    carrying the context, followed by the caller's turns in their order; the
    orchestrator adds no second system turn to it, whatever the personal
    injection setting, and in hybrid mode still scores the caller's last
    turn. *)
Theorem chat_with_context_puts_context_first
    (self : t) (vector_db : VectorDB) (ai : AIManager.t) (env : environ)
    (before after : list Message) (m : Message) (n_context : Z)
    (force_cloud : bool) (doc : Doc) (docs : list Doc) :
  enabled self = true ->
  vdb_enabled vector_db = true ->
  role m = "user" ->
  (forall msg, In msg after -> role msg <> "user") ->
  content m <> "" ->
  vdb_search vector_db (content m) n_context = Some (doc :: docs) ->
  chat_with_context self vector_db ai env (before ++ m :: after) n_context force_cloud
  = AIManager.chat ai env
      (context_message (_build_context self (doc :: docs)) :: before ++ m :: after)
      force_cloud
  /\ AIManager.inject_system ai env
       (context_message (_build_context self (doc :: docs)) :: before ++ m :: after)
     = context_message (_build_context self (doc :: docs)) :: before ++ m :: after
  /\ last (context_message (_build_context self (doc :: docs)) :: before ++ m :: after)
     = last (before ++ m :: after).
Proof.
  intros He Hv Hu Hafter Hc Hs. split; [| split].
  - unfold chat_with_context. rewrite He, Hv. cbn [negb orb].
    rewrite (last_user_message_found before after m Hu Hafter).
    apply String.eqb_neq in Hc. now rewrite Hc, Hs.
  - unfold AIManager.inject_system. cbn [existsb context_message role].
    change (String.eqb "system" "system") with true. cbn [orb negb].
    now destruct (AIManager.personal_injection_enabled ai).
  - destruct before; reflexivity.
Qed.

Lemma chat_with_context_puts_context_first_witness :
  enabled (__init__ true) = true
  /\ vdb_enabled store_rag = true
  /\ role (mkMessage "user" "capital of Norway") = "user"
  /\ content (mkMessage "user" "capital of Norway") <> ""
  /\ chat_with_context (__init__ true) store_rag AIManagerExamples.hybrid_manager []
       ([] ++ mkMessage "user" "capital of Norway" :: []) 3 false
     = (Py.Returned "local chat",
        [AIManager.LocalIsAvailable;
         AIManager.LocalChat
           [context_message "Oslo is the capital of Norway.";
            mkMessage "user" "capital of Norway"]]).
Proof.
  assert (H1 : enabled (__init__ true) = true) by reflexivity.
  assert (H2 : vdb_enabled store_rag = true) by reflexivity.
  assert (H3 : role (mkMessage "user" "capital of Norway") = "user") by reflexivity.
  assert (H4 : forall msg, In msg [] -> role msg <> "user") by (intros msg []).
  assert (H5 : content (mkMessage "user" "capital of Norway") <> "") by discriminate.
  split; [exact H1 | split; [exact H2 | split; [exact H3 | split; [exact H5 |]]]].
  exact (proj1 (chat_with_context_puts_context_first (__init__ true) store_rag
                  AIManagerExamples.hybrid_manager [] [] []
                  (mkMessage "user" "capital of Norway") 3 false
                  (doc "Oslo is the capital of Norway.") [] H1 H2 H3 H4 H5 eq_refl)).
Defined.

End RAGMoreFacts.

(** ** The conversation log with a positive cap or limit *)

Module MemoryLogFacts.
Import Memory MemoryExamples.

(** X28. With a positive cap and a directory that can be made, right
    after [add_conversation] the log holds the last [max_history] turns of
    the old log followed by the new turn, oldest first, hence at most
    [max_history] turns, whatever its length was before. *)
Theorem add_conversation_keeps_last_cap (self : t) (fs : Os.filesystem)
    (now user_input response : string) (metadata : option (gmap string Py.num)) :
  Os.makedirs fs (Os.dirname (conversation_file self)) = true ->
  0 < max_history self ->
  conversations (add_conversation self fs now user_input response metadata)
  = drop (length (conversations self) + 1 - Z.to_nat (max_history self))
         (conversations self
          ++ [mkConversation now user_input response (default ∅ metadata)])
  /\ Z.of_nat (length (conversations
                         (add_conversation self fs now user_input response metadata)))
     <= max_history self.
Proof.
  intros Hfs Hcap.
  assert (Hc : conversations (add_conversation self fs now user_input response metadata)
               = drop (length (conversations self) + 1 - Z.to_nat (max_history self))
                      (conversations self
                       ++ [mkConversation now user_input response (default ∅ metadata)])).
  { unfold add_conversation, _save_conversations.
    cbn [conversation_file max_history conversations with_conversations].
    rewrite Hfs. destruct (_ >? _) eqn:E.
    - cbn [conversations with_conversations].
      rewrite MemoryFacts.slice_from_neg by exact Hcap.
      f_equal. rewrite length_app. reflexivity.
    - rewrite length_app in E. cbn [length] in E.
      assert (Hz : (length (conversations self) + 1 - Z.to_nat (max_history self) = 0)%nat)
        by (rewrite Z.gtb_ltb in E; apply Z.ltb_ge in E; lia).
      now rewrite Hz. }
  split; [exact Hc |].
  rewrite Hc, length_drop, length_app. cbn [length]. lia.
Qed.

Lemma add_conversation_keeps_last_cap_witness :
  Os.makedirs fs_ok (Os.dirname (conversation_file (store_with_cap 2))) = true
  /\ 0 < max_history (store_with_cap 2)
  /\ conversations (add_all fs_ok (store_with_cap 2) ["1"; "2"; "3"])
     = [turn "2"; turn "3"].
Proof.
  assert (H1 : Os.makedirs fs_ok
                 (Os.dirname (conversation_file (store_with_cap 2))) = true)
    by reflexivity.
  assert (H2 : 0 < max_history (store_with_cap 2)) by reflexivity.
  split; [exact H1 | split; [exact H2 |]].
  exact (proj1 (add_conversation_keeps_last_cap
                  (add_all fs_ok (store_with_cap 2) ["1"; "2"]) fs_ok
                  "2024-01-01T00:00:00" "3" "ok" None H1 H2)).
Defined.

(** X29. For a positive limit [get_recent_conversations] returns the
    last [min(limit, length)] turns of the log, oldest first: the log is
    some older turns followed by exactly the turns returned. *)
Theorem recent_turns_for_positive_limit (self : t) (limit : Z) :
  0 < limit ->
  length (get_recent_conversations self limit)
  = Nat.min (Z.to_nat limit) (length (conversations self))
  /\ exists older : list Conversation,
       conversations self = (older ++ get_recent_conversations self limit)%list.
Proof.
  intros Hl.
  destruct (MemoryFacts.get_recent_conversations_positive self limit Hl)
    as [Hr Hlen].
  split; [exact Hlen |].
  exists (take (length (conversations self)
                - Nat.min (Z.to_nat limit) (length (conversations self)))
               (conversations self)).
  rewrite Hr. symmetry. apply take_drop.
Qed.

Lemma recent_turns_for_positive_limit_witness :
  0 < 1
  /\ length (get_recent_conversations store_with_two_turns 1) = 1%nat.
Proof.
  assert (H : 0 < 1) by lia.
  split; [exact H |].
  exact (proj1 (recent_turns_for_positive_limit store_with_two_turns 1 H)).
Defined.

End MemoryLogFacts.
